(** * Pin resolution and pin configuration of the nxp_lpc546 port

    A shallow embedding of [ports/nxp_lpc546/pin.c]: the resolver
    [pin_find], the class-level setters, and the configurator
    [pin_obj_init_helper], followed by the properties the design
    document states about them.

    Conventions.
    - [mp_int_t] and [uint] are 32 bits wide on this port; they are
      carried as [Z] and the conversion to [uint] is written [to_uint].
    - A nullable C pointer ([MP_OBJ_NULL], [NULL]) is an [option].
    - Output of [printf]/[mp_obj_print], calls into Python code and
      hardware accesses are recorded, in program order, in a trace.
    - [nlr_raise] is the [Raise] result; it ends the function. *)

From Stdlib Require Import ZArith List String Bool Lia.
Import ListNotations.
Local Open Scope string_scope.
Local Open Scope list_scope.
Local Open Scope Z_scope.

(** ** Exceptions and the trace monad *)

Inductive mp_exc_type_t := mp_type_ValueError | mp_type_TypeError | mp_type_Exception.

(** Arguments handed to the [printf]-style exception constructor. *)
Inductive fmt_arg := ArgStr (s : string) | ArgInt (n : Z).

(** [mp_obj_new_exception_msg_varg type fmt args]; the plain
    [mp_obj_new_exception_msg type msg] is the case [args = []]. *)
Record mp_exception := mp_obj_new_exception_msg_varg
  { exc_type : mp_exc_type_t; exc_fmt : string; exc_args : list fmt_arg }.

Definition mp_obj_new_exception_msg (t : mp_exc_type_t) (msg : string) : mp_exception :=
  mp_obj_new_exception_msg_varg t msg [].

Inductive result (A : Type) : Type :=
| Return (a : A)
| Raise (e : mp_exception).
Arguments Return {A} a.
Arguments Raise {A} e.

(** A computation: the events it performed, oldest first, and how it ended. *)
Definition M (E A : Type) : Type := (list E * result A)%type.

Definition ret {E A} (a : A) : M E A := ([], Return a).
Definition nlr_raise {E A} (e : mp_exception) : M E A := ([], Raise e).
Definition emit {E} (e : E) : M E unit := ([e], Return tt).
Definition lift {E A} (r : result A) : M E A := ([], r).

Definition bind {E A B} (c : M E A) (k : A -> M E B) : M E B :=
  match c with
  | (t, Return a) => let (t', r) := k a in (t ++ t', r)
  | (t, Raise e) => (t, Raise e)
  end.

Definition when {E} (b : bool) (c : M E unit) : M E unit :=
  if b then c else ret tt.

Definition events {E A} (c : M E A) : list E := fst c.
Definition outcome {E A} (c : M E A) : result A := snd c.

Declare Scope trace_scope.
Delimit Scope trace_scope with trace.
Notation "x <- c ;; k" := (bind c (fun x => k))
  (at level 100, c at next level, right associativity) : trace_scope.
Notation "c ;; k" := (bind c (fun _ => k))
  (at level 100, right associativity) : trace_scope.
Local Open Scope trace_scope.

(** ** Objects *)

Definition qstr := string.

(** [pin_af_obj_t]: one alternate function of a pin. *)
Record pin_af_obj_t := { af_name : qstr; idx : Z; reg : Z }.

(** [pin_obj_t]: [gpio] is the address of the GPIO register block. *)
Record pin_obj_t := {
  name : qstr;
  port : Z;
  pin : Z;
  gpio : Z;
  af : list pin_af_obj_t
}.

(** The Python objects that reach this file.  A callable is a handle;
    what it computes is given by [mp_call_function_1]. *)
#[local] Set Warnings "-register-all".
Inductive mp_obj_t :=
| mp_const_none
| ObjBool (b : bool)
| ObjInt (n : Z)
| ObjStr (s : string)
| ObjPin (p : pin_obj_t)
| ObjFun (h : nat)
| ObjDict (table : list (mp_obj_t * option mp_obj_t)).

Inductive mp_obj_type_t :=
| mp_type_NoneType | mp_type_bool | mp_type_int | mp_type_str
| pin_type | mp_type_fun | mp_type_dict.

Definition mp_obj_get_type (o : mp_obj_t) : mp_obj_type_t :=
  match o with
  | mp_const_none => mp_type_NoneType
  | ObjBool _ => mp_type_bool
  | ObjInt _ => mp_type_int
  | ObjStr _ => mp_type_str
  | ObjPin _ => pin_type
  | ObjFun _ => mp_type_fun
  | ObjDict _ => mp_type_dict
  end.

Definition mp_obj_type_eqb (a b : mp_obj_type_t) : bool :=
  match a, b with
  | mp_type_NoneType, mp_type_NoneType | mp_type_bool, mp_type_bool
  | mp_type_int, mp_type_int | mp_type_str, mp_type_str
  | pin_type, pin_type | mp_type_fun, mp_type_fun
  | mp_type_dict, mp_type_dict => true
  | _, _ => false
  end.

Definition MP_OBJ_IS_TYPE (o : mp_obj_t) (t : mp_obj_type_t) : bool :=
  mp_obj_type_eqb (mp_obj_get_type o) t.

(** [o != mp_const_none] is [negb (is_none o)]. *)
Definition is_none (o : mp_obj_t) : bool :=
  match o with mp_const_none => true | _ => false end.

Definition pin_af_obj_eq_dec (a b : pin_af_obj_t) : {a = b} + {a <> b}.
Proof. decide equality; auto using Z.eq_dec, string_dec. Defined.

Definition pin_obj_eq_dec (a b : pin_obj_t) : {a = b} + {a <> b}.
Proof.
  decide equality; auto using Z.eq_dec, string_dec.
  apply list_eq_dec, pin_af_obj_eq_dec.
Defined.

(** Key comparison of [mp_map_lookup].  Pin descriptors are statically
    allocated, so pointer identity is equality of the descriptors; a
    dict is not hashable and equals no key. *)
Definition mp_obj_equal (a b : mp_obj_t) : bool :=
  match a, b with
  | mp_const_none, mp_const_none => true
  | ObjBool x, ObjBool y => Bool.eqb x y
  | ObjInt x, ObjInt y => Z.eqb x y
  | ObjStr x, ObjStr y => String.eqb x y
  | ObjPin x, ObjPin y => if pin_obj_eq_dec x y then true else false
  | ObjFun x, ObjFun y => Nat.eqb x y
  | _, _ => false
  end.

(** [mp_map_elem_t] and [mp_map_t]. *)
Definition mp_map_elem_t : Type := (mp_obj_t * option mp_obj_t)%type.
Definition key (e : mp_map_elem_t) : mp_obj_t := fst e.
Definition value (e : mp_map_elem_t) : option mp_obj_t := snd e.
Definition mp_map_t : Type := list mp_map_elem_t.

(** Modelled from the spec: [mp_map_lookup] with [MP_MAP_LOOKUP] (py/map.c)
    is missing; "look up identifier as a key; an exact found entry". *)
Definition mp_map_lookup (m : mp_map_t) (index : mp_obj_t) : option mp_map_elem_t :=
  find (fun e => mp_obj_equal (key e) index) m.

(** Modelled from the spec: [mp_obj_dict_get_map] (py/objdict.c) is missing;
    it gives the table of an installed override table.  Its contract
    asks for a dict; other objects are given the empty table here. *)
Definition mp_obj_dict_get_map (o : mp_obj_t) : mp_map_t :=
  match o with ObjDict t => t | _ => [] end.

(** Modelled from the spec: [mp_obj_is_true] (py/obj.c) is missing; the
    logic level an initial value stands for. *)
Definition mp_obj_is_true (o : mp_obj_t) : bool :=
  match o with
  | mp_const_none => false
  | ObjBool b => b
  | ObjInt n => negb (Z.eqb n 0)
  | ObjStr s => negb (String.eqb s EmptyString)
  | ObjDict [] => false
  | _ => true
  end.

(** Modelled from the spec: [mp_obj_get_int] (py/obj.c) is missing; the
    integer a pull selection carries, a [TypeError] for an object that
    carries none. *)
Definition mp_obj_get_int (o : mp_obj_t) : result Z :=
  match o with
  | ObjInt n => Return n
  | ObjBool b => Return (Z.b2z b)
  | _ => Raise (mp_obj_new_exception_msg mp_type_TypeError "can't convert to int")
  end.

(** The [TypeError] of the runtime for an object that is used where a
    str is needed. *)
Definition bad_implicit_conversion (o : mp_obj_t) : mp_exception :=
  mp_obj_new_exception_msg mp_type_TypeError "can't convert to str implicitly".

(** Modelled from the spec: [mp_obj_str_get_str] (py/objstr.c) is missing;
    it gives the text of the identifier that the invalid-identifier
    error carries.  It is defined on str objects only: for any other
    object the runtime raises a [TypeError] and does not return. *)
Definition mp_obj_str_get_str (o : mp_obj_t) : result string :=
  match o with
  | ObjStr s => Return s
  | _ => Raise (bad_implicit_conversion o)
  end.

(** A table of named pins ([pin_board_pins_locals_dict],
    [pin_cpu_pins_locals_dict]): fixed, ordered, name to descriptor. *)
Definition named_pins : Type := list (qstr * pin_obj_t).

(** Modelled from the spec: [pin_find_named_pin] (pin_named_pins.c) is
    missing; "look up identifier by name in the catalog; return on
    match".  [None] is the C [NULL]. *)
Definition pin_find_named_pin (named : named_pins) (name : mp_obj_t) : option pin_obj_t :=
  match name with
  | ObjStr s =>
      match find (fun e => String.eqb (fst e) s) named with
      | Some e => Some (snd e)
      | None => None
      end
  | _ => None
  end.

(** ** What the file takes from its environment *)

(** The interpreter: what calling an object yields. *)
Class Runtime := {
  mp_call_function_1 : mp_obj_t -> mp_obj_t -> result mp_obj_t
}.

(** The generated pin tables of the board. *)
Class Board := {
  pin_board_pins_locals_dict : named_pins;
  pin_cpu_pins_locals_dict : named_pins
}.

(** ** Pin class variables *)

Record pin_class_state := {
  pin_class_mapper : mp_obj_t;      (* MP_STATE_PORT(pin_class_mapper) *)
  pin_class_map_dict : mp_obj_t;    (* MP_STATE_PORT(pin_class_map_dict) *)
  pin_class_debug : bool
}.

Definition pin_init0 : pin_class_state :=
  {| pin_class_mapper := mp_const_none;
     pin_class_map_dict := mp_const_none;
     pin_class_debug := false |}.

Definition set_mapper (o : mp_obj_t) (st : pin_class_state) : pin_class_state :=
  {| pin_class_mapper := o;
     pin_class_map_dict := pin_class_map_dict st;
     pin_class_debug := pin_class_debug st |}.

Definition set_map_dict (o : mp_obj_t) (st : pin_class_state) : pin_class_state :=
  {| pin_class_mapper := pin_class_mapper st;
     pin_class_map_dict := o;
     pin_class_debug := pin_class_debug st |}.

Definition set_debug (b : bool) (st : pin_class_state) : pin_class_state :=
  {| pin_class_mapper := pin_class_mapper st;
     pin_class_map_dict := pin_class_map_dict st;
     pin_class_debug := b |}.

(** [Pin.mapper([fun])], [Pin.dict([dict])], [Pin.debug([state])]: with a
    second argument they store it and return [None], otherwise they
    return the current value.  [args] starts with the class object. *)
Definition pin_mapper (args : list mp_obj_t) (st : pin_class_state)
  : mp_obj_t * pin_class_state :=
  match args with
  | _ :: a1 :: _ => (mp_const_none, set_mapper a1 st)
  | _ => (pin_class_mapper st, st)
  end.

Definition pin_map_dict (args : list mp_obj_t) (st : pin_class_state)
  : mp_obj_t * pin_class_state :=
  match args with
  | _ :: a1 :: _ => (mp_const_none, set_map_dict a1 st)
  | _ => (pin_class_map_dict st, st)
  end.

Definition pin_debug (args : list mp_obj_t) (st : pin_class_state)
  : mp_obj_t * pin_class_state :=
  match args with
  | _ :: a1 :: _ => (mp_const_none, set_debug (mp_obj_is_true a1) st)
  | _ => (ObjBool (pin_class_debug st), st)
  end.

(** ** The resolver *)

Inductive mp_print_kind_t := PRINT_STR | PRINT_REPR.

(** What [pin_find] does that can be seen from outside. *)
Inductive pin_event :=
| EvCall (f arg : mp_obj_t)                       (* mp_call_function_1 f arg *)
| EvPrintf (s : string)                           (* printf s *)
| EvPrint (o : mp_obj_t) (kind : mp_print_kind_t) (* mp_obj_print o kind *).

Definition is_call (e : pin_event) : bool :=
  match e with EvCall _ _ => true | _ => false end.

(** The calls into Python code among the events of a run. *)
Definition calls {A} (c : M pin_event A) : list pin_event := filter is_call (events c).

(** The diagnostic output among the events of a run. *)
Definition diagnostics {A} (c : M pin_event A) : list pin_event :=
  filter (fun e => negb (is_call e)) (events c).

Definition printf (s : string) : M pin_event unit := emit (EvPrintf s).
Definition mp_obj_print (o : mp_obj_t) (k : mp_print_kind_t) : M pin_event unit :=
  emit (EvPrint o k).
Definition newline : string := String (Ascii.ascii_of_nat 10) EmptyString.

Definition InvalidMapperResult : mp_exception :=
  mp_obj_new_exception_msg mp_type_ValueError "Pin.mapper didn't return a Pin object".

(** The error of the last line of [pin_find], for the identifier
    text [s]. *)
Definition InvalidIdentifier (s : string) : mp_exception :=
  mp_obj_new_exception_msg_varg mp_type_ValueError
    "pin '%s' not a valid pin identifier" [ArgStr s].

Section Resolver.
Context {rt : Runtime} {board : Board}.

Definition call_function_1 (f arg : mp_obj_t) : M pin_event mp_obj_t :=
  emit (EvCall f arg) ;; lift (mp_call_function_1 f arg).

(** "<who> maps <user_obj> to <pin_obj>\n" *)
Definition debug_maps (st : pin_class_state) (who : string) (user_obj pin_obj : mp_obj_t)
  : M pin_event unit :=
  when (pin_class_debug st)
    (printf who ;; mp_obj_print user_obj PRINT_REPR ;;
     printf " to " ;; mp_obj_print pin_obj PRINT_STR ;; printf newline).

(** [pin_find]: the result is the object the C function returns
    through its [const pin_obj_t *]. *)
Definition pin_find (st : pin_class_state) (user_obj : mp_obj_t) : M pin_event mp_obj_t :=
  (* If a pin was provided, then use it *)
  if MP_OBJ_IS_TYPE user_obj pin_type then
    let pin_obj := user_obj in
    when (pin_class_debug st)
      (printf "Pin map passed pin " ;; mp_obj_print pin_obj PRINT_STR ;; printf newline) ;;
    ret pin_obj
  else
    from_mapper <-
      (if negb (is_none (pin_class_mapper st)) then
         pin_obj <- call_function_1 (pin_class_mapper st) user_obj ;;
         if negb (is_none pin_obj) then
           (if negb (MP_OBJ_IS_TYPE pin_obj pin_type)
            then nlr_raise InvalidMapperResult else ret tt) ;;
           debug_maps st "Pin.mapper maps " user_obj pin_obj ;;
           ret (Some pin_obj)
         else
           (* The pin mapping function returned mp_const_none, fall
              through to other lookup methods. *)
           ret None
       else ret None) ;;
    match from_mapper with
    | Some pin_obj => ret pin_obj
    | None =>
    from_dict <-
      (if negb (is_none (pin_class_map_dict st)) then
         let pin_map_map := mp_obj_dict_get_map (pin_class_map_dict st) in
         match mp_map_lookup pin_map_map user_obj with
         | Some (_, Some pin_obj) =>
             debug_maps st "Pin.map_dict maps " user_obj pin_obj ;;
             ret (Some pin_obj)
         | _ => ret None
         end
       else ret None) ;;
    match from_dict with
    | Some pin_obj => ret pin_obj
    | None =>
    (* See if the pin name matches a board pin *)
    match pin_find_named_pin pin_board_pins_locals_dict user_obj with
    | Some p =>
        debug_maps st "Pin.board maps " user_obj (ObjPin p) ;;
        ret (ObjPin p)
    | None =>
    (* See if the pin name matches a cpu pin *)
    match pin_find_named_pin pin_cpu_pins_locals_dict user_obj with
    | Some p =>
        debug_maps st "Pin.cpu maps " user_obj (ObjPin p) ;;
        ret (ObjPin p)
    | None =>
        (* the argument of the exception is evaluated first, and may
           itself raise *)
        s <- lift (mp_obj_str_get_str user_obj) ;;
        nlr_raise (InvalidIdentifier s)
    end end end end.

(** How [pin_find] ends when no strategy resolves the identifier. *)
Definition unresolved (user_obj : mp_obj_t) : result mp_obj_t :=
  match mp_obj_str_get_str user_obj with
  | Return s => Raise (InvalidIdentifier s)
  | Raise e => Raise e
  end.

(** The mapper strategy leaves the identifier unresolved: no mapper
    is installed, or the mapper answered [None]. *)
Definition mapper_declines (st : pin_class_state) (user_obj : mp_obj_t) : Prop :=
  is_none (pin_class_mapper st) = true \/
  mp_call_function_1 (pin_class_mapper st) user_obj = Return mp_const_none.

(** What the override table holds for the identifier: the value of
    the found entry, when a table is installed. *)
Definition override_table_entry (st : pin_class_state) (user_obj : mp_obj_t)
  : option mp_obj_t :=
  if is_none (pin_class_map_dict st) then None
  else match mp_map_lookup (mp_obj_dict_get_map (pin_class_map_dict st)) user_obj with
       | Some elem => value elem
       | None => None
       end.

Definition board_pin (user_obj : mp_obj_t) : option pin_obj_t :=
  pin_find_named_pin pin_board_pins_locals_dict user_obj.

Definition cpu_pin (user_obj : mp_obj_t) : option pin_obj_t :=
  pin_find_named_pin pin_cpu_pins_locals_dict user_obj.

End Resolver.

(** ** The configurator *)

(** Conversion of an integer to the 32-bit [uint] / [uint32_t]. *)
Definition to_uint (z : Z) : Z := z mod 2 ^ 32.

(** Constants of the headers ([pin.h] and the vendor HAL), which are
    not part of this file: clock names, register block addresses, the
    mode and pull encodings. *)
Class Hal := {
  kCLOCK_Iocon : Z;
  kCLOCK_Gpio0 : Z;
  kCLOCK_Gpio4 : Z;
  IOCON : Z;
  GPIO : Z;
  IOCON_MODE_INACT : Z;
  GPIO_PULLUP : Z;
  GPIO_PULLDOWN : Z;
  GPIO_REPEATER : Z;
  GPIO_MODE_INPUT : Z;
  GPIO_MODE_OUTPUT_PP : Z;
  GPIO_MODE_OUTPUT_OD : Z;
  GPIO_MODE_AF_PP : Z;
  GPIO_MODE_AF_OD : Z;
  GPIO_MODE_ANALOG : Z
}.

(** Hardware accesses, as a recording register backend sees them. *)
Inductive hw_op :=
| CLOCK_EnableClock (clk : Z)
| IOCON_PinMuxSet (base port pin modefunc : Z)
| DIRCLR_write (gpio_base port v : Z)          (* gpio->DIRCLR[port] = v *)
| DIRSET_write (gpio_base port v : Z)          (* gpio->DIRSET[port] = v *)
| GPIO_WritePinOutput (base port pin : Z) (output : bool).

(** [mp_arg_t]: one row of an argument table. *)
Inductive mp_arg_kind := MP_ARG_BOOL | MP_ARG_INT | MP_ARG_OBJ.
Inductive mp_arg_val_t :=
| u_bool (b : bool)
| u_int (n : Z)
| u_obj (o : option mp_obj_t).
Record mp_arg_t := {
  qst : qstr;
  arg_kind : mp_arg_kind;
  MP_ARG_REQUIRED : bool;
  MP_ARG_KW_ONLY : bool;
  defval : mp_arg_val_t
}.

(** init(mode, pull=None, af, *, value, alt, inv, flt) *)
Definition allowed_args : list mp_arg_t :=
  [ {| qst := "mode";  arg_kind := MP_ARG_INT;  MP_ARG_REQUIRED := true;
       MP_ARG_KW_ONLY := false; defval := u_int 0 |};
    {| qst := "pull";  arg_kind := MP_ARG_OBJ;  MP_ARG_REQUIRED := false;
       MP_ARG_KW_ONLY := false; defval := u_obj (Some mp_const_none) |};
    {| qst := "af";    arg_kind := MP_ARG_INT;  MP_ARG_REQUIRED := false;
       MP_ARG_KW_ONLY := false; defval := u_int 4 |};
    {| qst := "value"; arg_kind := MP_ARG_OBJ;  MP_ARG_REQUIRED := false;
       MP_ARG_KW_ONLY := true;  defval := u_obj None |};
    {| qst := "alt";   arg_kind := MP_ARG_INT;  MP_ARG_REQUIRED := false;
       MP_ARG_KW_ONLY := true;  defval := u_int 0 |};
    {| qst := "inv";   arg_kind := MP_ARG_BOOL; MP_ARG_REQUIRED := false;
       MP_ARG_KW_ONLY := true;  defval := u_bool false |};
    {| qst := "flt";   arg_kind := MP_ARG_BOOL; MP_ARG_REQUIRED := false;
       MP_ARG_KW_ONLY := true;  defval := u_bool false |} ].


(** [pin_init_t], as [mp_arg_parse_all] fills it: [args.mode.u_int],
    [args.pull.u_obj], [args.af.u_int], [args.val0.u_obj],
    [args.alt.u_int], [args.inv.u_bool], [args.flt.u_bool]. *)
Record pin_init_t := {
  args_mode : Z;
  args_pull : mp_obj_t;
  args_af : Z;
  args_val0 : option mp_obj_t;
  args_alt : Z;
  args_inv : bool;
  args_flt : bool
}.


(** The control word as the design document spells it: alternate
    function, mode field, digital bit, pull, inversion bit, filter bit. *)
Definition packed_control_word (alt mode pull : Z) (inv flt : bool) : Z :=
  Z.lor alt
    (Z.lor (Z.land mode 4095)
       (Z.lor (Z.shiftl 1 8)
          (Z.lor pull
             (Z.lor (Z.shiftl (Z.b2z inv) 7) (Z.shiftl (Z.b2z (negb flt)) 9))))).

Section Configurator.
Context {hal : Hal}.

Definition gpio_mode_set : list Z :=
  [GPIO_MODE_INPUT; GPIO_MODE_OUTPUT_PP; GPIO_MODE_OUTPUT_OD;
   GPIO_MODE_AF_PP; GPIO_MODE_AF_OD; GPIO_MODE_ANALOG].

Definition gpio_pull_set : list Z :=
  [GPIO_PULLUP; GPIO_PULLDOWN; GPIO_REPEATER; IOCON_MODE_INACT].

(** Modelled from the spec: the macro [IS_GPIO_MODE] (pin.h) is missing;
    "must be a member of the enumerated GPIO mode set". *)
Definition IS_GPIO_MODE (mode : Z) : bool := existsb (Z.eqb mode) gpio_mode_set.

(** Modelled from the spec: the macro [IS_GPIO_PULL] (pin.h) is missing;
    "must be a member of {PULL_UP, PULL_DOWN, REPEATER, NONE}". *)
Definition IS_GPIO_PULL (pull : Z) : bool := existsb (Z.eqb pull) gpio_pull_set.

Definition InvalidMode (mode : Z) : mp_exception :=
  mp_obj_new_exception_msg_varg mp_type_ValueError "invalid pin mode: %d" [ArgInt mode].

Definition InvalidPull (pull : Z) : mp_exception :=
  mp_obj_new_exception_msg_varg mp_type_ValueError "invalid pin pull: %d" [ArgInt pull].

(** [uint pull = IOCON_MODE_INACT; if (args.pull.u_obj != mp_const_none)
    pull = mp_obj_get_int(args.pull.u_obj);] *)
Definition get_pull (args : pin_init_t) : result Z :=
  if negb (is_none (args_pull args)) then
    match mp_obj_get_int (args_pull args) with
    | Return n => Return (to_uint n)
    | Raise e => Raise e
    end
  else Return (to_uint IOCON_MODE_INACT).

(** The last argument of [IOCON_PinMuxSet], with the conversions of C:
    the [int] operands to the left of [pull] are converted to [uint]
    when they meet it. *)
Definition modefunc (args : pin_init_t) (pull : Z) : Z :=
  Z.lor
    (Z.lor
       (Z.lor
          (to_uint (Z.lor (Z.lor (args_alt args) (Z.land (args_mode args) 4095))
                          (Z.shiftl 1 8)))
          pull)
       (Z.shiftl (Z.b2z (args_inv args)) 7))
    (Z.shiftl (Z.b2z (negb (args_flt args))) 9).

(** The GPIO bank clock of a port. *)
Definition gpio_clock (p : Z) : Z :=
  if p <? 4 then kCLOCK_Gpio0 + p else kCLOCK_Gpio4 + p - 4.

(** [pin_obj_init_helper], from the parsed arguments on. *)
Definition pin_obj_init_helper (self : pin_obj_t) (args : pin_init_t) : M hw_op mp_obj_t :=
  (if negb (IS_GPIO_MODE (args_mode args))
   then nlr_raise (InvalidMode (args_mode args)) else ret tt) ;;
  (* get pull mode *)
  pull <- lift (get_pull args) ;;
  (if negb (IS_GPIO_PULL pull) then nlr_raise (InvalidPull pull) else ret tt) ;;
  emit (CLOCK_EnableClock kCLOCK_Iocon) ;;
  emit (IOCON_PinMuxSet IOCON (port self) (pin self) (modefunc args pull)) ;;
  (if args_alt args =? 0 then
     (* Select GPIO; enable GPIO port clock *)
     (if port self <? 4
      then emit (CLOCK_EnableClock (kCLOCK_Gpio0 + port self))
      else emit (CLOCK_EnableClock (kCLOCK_Gpio4 + port self - 4))) ;;
     if args_mode args =? GPIO_MODE_INPUT then
       emit (DIRCLR_write (gpio self) (port self) (Z.shiftl 1 (pin self)))
     else
       (match args_val0 args with
        | Some v =>
            emit (GPIO_WritePinOutput GPIO (port self) (pin self) (mp_obj_is_true v))
        | None => ret tt
        end) ;;
       emit (DIRSET_write (gpio self) (port self) (Z.shiftl 1 (pin self)))
   else ret tt) ;;
  ret mp_const_none.

(** The request passes validation with effective pull [pull]. *)
Definition valid_request (args : pin_init_t) (pull : Z) : Prop :=
  IS_GPIO_MODE (args_mode args) = true /\
  get_pull args = Return pull /\
  IS_GPIO_PULL pull = true.

(** The GPIO steps that follow the mux write when [alt] is 0. *)
Definition gpio_steps (self : pin_obj_t) (args : pin_init_t) : list hw_op :=
  CLOCK_EnableClock (gpio_clock (port self)) ::
  (if args_mode args =? GPIO_MODE_INPUT then
     [DIRCLR_write (gpio self) (port self) (Z.shiftl 1 (pin self))]
   else
     match args_val0 args with
     | Some v => [GPIO_WritePinOutput GPIO (port self) (pin self) (mp_obj_is_true v)]
     | None => []
     end ++ [DIRSET_write (gpio self) (port self) (Z.shiftl 1 (pin self))]).

(** The clocks a run enables, in order. *)
Definition clock_enables (ops : list hw_op) : list Z :=
  flat_map (fun op => match op with CLOCK_EnableClock c => [c] | _ => [] end) ops.

End Configurator.

(** ** The constructor, [init], [names] and the class constants *)

(** What the binding layer supplies at the boundary of this file: the
    argument parser, which fills a [pin_init_t] from the positional and
    keyword arguments or raises, and what the fields of a [pin_obj_t]
    read as at the address of an object that is not a pin (the C code
    casts without a check). *)
Class Binding := {
  mp_arg_parse_all : list mp_obj_t -> mp_map_t -> list mp_arg_t -> result pin_init_t;
  reinterpret_as_pin : mp_obj_t -> pin_obj_t
}.

(** The events of a call that both resolves and configures. *)
Inductive pin_class_event :=
| FromResolver (e : pin_event)
| FromHardware (op : hw_op).

Definition resolving {A} (c : M pin_event A) : M pin_class_event A :=
  (map FromResolver (events c), outcome c).

Definition configuring {A} (c : M hw_op A) : M pin_class_event A :=
  (map FromHardware (events c), outcome c).

(** The hardware accesses among the events of a call. *)
Definition hardware_of (t : list pin_class_event) : list hw_op :=
  flat_map (fun e => match e with FromHardware op => [op] | _ => [] end) t.


Definition with_val0 (v : option mp_obj_t) (a : pin_init_t) : pin_init_t :=
  {| args_mode := args_mode a; args_pull := args_pull a; args_af := args_af a;
     args_val0 := v; args_alt := args_alt a;
     args_inv := args_inv a; args_flt := args_flt a |}.

Section Constructor.
Context {rt : Runtime} {board : Board} {hal : Hal} {binding : Binding}.

(** The cast of an object to [const pin_obj_t] pointer. *)
Definition cast_pin (o : mp_obj_t) : pin_obj_t :=
  match o with ObjPin p => p | _ => reinterpret_as_pin o end.

(** [pin_obj_init_helper] with its first step, the parsing of the
    arguments against [allowed_args]. *)
Definition pin_obj_init_helper_args (self : pin_obj_t)
    (pos_args : list mp_obj_t) (kw_args : mp_map_t) : M hw_op mp_obj_t :=
  args <- lift (mp_arg_parse_all pos_args kw_args allowed_args) ;;
  pin_obj_init_helper self args.

(** [mp_pin_make_new]: [id] is [args[0]], [pos_args] the positional
    arguments after it ([n_args = 1 + length pos_args], so the check of
    [mp_arg_check_num] for at least one argument has passed), [kw_args]
    the [n_kw] keyword arguments. *)
Definition mp_pin_make_new (st : pin_class_state) (id : mp_obj_t)
    (pos_args : list mp_obj_t) (kw_args : mp_map_t) : M pin_class_event mp_obj_t :=
  (* Run an argument through the mapper and return the result. *)
  pin <- resolving (pin_find st id) ;;
  (if (1 <? 1 + Z.of_nat (List.length pos_args)) || (0 <? Z.of_nat (List.length kw_args)) then
     (* pin mode given, so configure this GPIO *)
     configuring (pin_obj_init_helper_args (cast_pin pin) pos_args kw_args) ;; ret tt
   else ret tt) ;;
  ret pin.


(** [pin_names]: the list starts with the pin's own name; the loop
    over the board table appends the key of every entry whose value is
    this pin. *)
Definition pin_names (self : pin_obj_t) : list mp_obj_t :=
  fold_left
    (fun result elem =>
       if pin_obj_eq_dec (snd elem) self then result ++ [ObjStr (fst elem)] else result)
    pin_board_pins_locals_dict
    [ObjStr (name self)].

(** The test of the loop of [pin_names]: the entry holds this pin. *)
Definition bound_to (self : pin_obj_t) (elem : qstr * pin_obj_t) : bool :=
  if pin_obj_eq_dec (snd elem) self then true else false.

(** The class constants of [pin_locals_dict_table], in the order of
    the table. *)
Definition pin_class_constants : list (qstr * Z) :=
  [ ("IN", GPIO_MODE_INPUT);
    ("OUT", GPIO_MODE_OUTPUT_PP);
    ("OPEN_DRAIN", GPIO_MODE_OUTPUT_OD);
    ("ALT", GPIO_MODE_AF_PP);
    ("ALT_OPEN_DRAIN", GPIO_MODE_OUTPUT_OD);
    ("PULL_UP", GPIO_PULLUP);
    ("PULL_DOWN", GPIO_PULLDOWN);
    ("REPEATER", GPIO_REPEATER);
    ("INVERTER", GPIO_MODE_INPUT) ].

(** A hardware access addresses the pin [self] (a clock enable
    addresses no pin). *)
Definition addresses (self : pin_obj_t) (op : hw_op) : Prop :=
  match op with
  | CLOCK_EnableClock _ => True
  | IOCON_PinMuxSet base p q _ => base = IOCON /\ p = port self /\ q = pin self
  | DIRCLR_write g p v => g = gpio self /\ p = port self /\ v = Z.shiftl 1 (pin self)
  | DIRSET_write g p v => g = gpio self /\ p = port self /\ v = Z.shiftl 1 (pin self)
  | GPIO_WritePinOutput base p q _ => base = GPIO /\ p = port self /\ q = pin self
  end.

Definition is_mux_write (op : hw_op) : bool :=
  match op with IOCON_PinMuxSet _ _ _ _ => true | _ => false end.

Definition is_direction_write (op : hw_op) : bool :=
  match op with DIRCLR_write _ _ _ | DIRSET_write _ _ _ => true | _ => false end.

End Constructor.

(** ** The description of a pin *)

(** The read-back accessors of the port ([pin_get_mode], [pin_get_pull],
    [pin_get_af]) and the digital-mode bit of the header. *)
Class Readback := {
  GPIO_MODE_DIGITAL : Z;
  pin_get_mode : pin_obj_t -> Z;
  pin_get_pull : pin_obj_t -> Z;
  pin_get_af : pin_obj_t -> Z
}.

(** Output of [pin_print]: [mp_printf print fmt args] and
    [mp_print_str print s]. *)
Inductive print_op :=
| mp_printf (fmt : string) (args : list fmt_arg)
| mp_print_str (s : string).

(** The text handed to the printer, format strings as they are
    written (the arguments are not expanded). *)
Definition print_text (op : print_op) : string :=
  match op with mp_printf fmt _ => fmt | mp_print_str s => s end.

Fixpoint paren_depth (s : string) : Z :=
  match s with
  | EmptyString => 0
  | String c rest =>
      (if Ascii.eqb c (Ascii.ascii_of_nat 40) then 1
       else if Ascii.eqb c (Ascii.ascii_of_nat 41) then -1 else 0)
      + paren_depth rest
  end.

(** Opening minus closing parentheses in what was printed. *)
Definition open_parens (ops : list print_op) : Z :=
  fold_right (fun op n => paren_depth (print_text op) + n) 0 ops.

Definition MP_QSTR_NULL : qstr := "".
Definition MP_QSTR_IN : qstr := "IN".
Definition MP_QSTR_OUT : qstr := "OUT".
Definition MP_QSTR_OPEN_DRAIN : qstr := "OPEN_DRAIN".
Definition MP_QSTR_PULL_UP : qstr := "PULL_UP".
Definition MP_QSTR_PULL_DOWN : qstr := "PULL_DOWN".
Definition MP_QSTR_REPEATER : qstr := "REPEATER".
Definition qstr_str (q : qstr) : string := q.

(** Modelled from the spec: [pin_find_af_by_index] (pin_named_pins.c) is
    missing; "linear scan of the pin's fixed alternate-function list for
    a matching numeric index; returns the first match or not-found". *)
Definition pin_find_af_by_index (self : pin_obj_t) (af_idx : Z) : option pin_af_obj_t :=
  find (fun a => idx a =? af_idx) (af self).

Section Describe.
Context {hal : Hal} {rb : Readback}.

Definition print_event (op : print_op) : M print_op unit := emit op.

(** [pin_print] *)
Definition pin_print (self : pin_obj_t) : M print_op unit :=
  (* pin name *)
  print_event (mp_printf "Pin(Pin.cpu.%q, mode=Pin." [ArgStr (name self)]) ;;
  let mode := pin_get_mode self in
  if Z.land mode GPIO_MODE_DIGITAL =? 0 then
    (* analog *)
    print_event (mp_print_str "ANALOG)")
  else
    (* IO mode *)
    let mode_qst :=
      if Z.land mode GPIO_MODE_OUTPUT_PP =? 0 then MP_QSTR_IN
      else if mode =? GPIO_MODE_OUTPUT_PP then MP_QSTR_OUT
      else MP_QSTR_NULL in
    print_event (mp_print_str (qstr_str mode_qst)) ;;
    when (negb (Z.land mode GPIO_MODE_OUTPUT_OD =? 0))
      (print_event (mp_print_str (qstr_str MP_QSTR_OPEN_DRAIN))) ;;
    (* pull mode *)
    let pull := pin_get_pull self in
    let pull_qst :=
      if pull =? GPIO_PULLUP then MP_QSTR_PULL_UP
      else if pull =? GPIO_PULLDOWN then MP_QSTR_PULL_DOWN
      else if pull =? GPIO_REPEATER then MP_QSTR_REPEATER
      else MP_QSTR_NULL in
    when (negb (String.eqb pull_qst MP_QSTR_NULL))
      (print_event (mp_printf ", pull=Pin.%q" [ArgStr pull_qst])) ;;
    let alt := Z.land mode 15 in
    if alt =? 0 then
      print_event (mp_printf "Func=GPIO" [])
    else
      let af_idx := pin_get_af self in
      match pin_find_af_by_index self af_idx with
      | None => print_event (mp_printf ", af=%d)" [ArgInt af_idx])
      | Some af_obj => print_event (mp_printf ", af=Pin.%q)" [ArgStr (af_name af_obj)])
      end.

End Describe.

(** ** Sample environment

    A small board, two mapper functions and an assignment of the header
    constants, on which the statements below are exercised. *)

Definition P0_4 : pin_obj_t :=
  {| name := "P0_4"; port := 0; pin := 4; gpio := 1074315264; af := [] |}.
Definition P4_7 : pin_obj_t :=
  {| name := "P4_7"; port := 4; pin := 7; gpio := 1074315264;
     af := [ {| af_name := "FC8_RXD"; idx := 2; reg := 1074397184 |} ] |}.

Definition sample_board : Board :=
  {| pin_board_pins_locals_dict := [("X1", P0_4)];
     pin_cpu_pins_locals_dict := [("P0_4", P0_4); ("P4_7", P4_7)] |}.

(** [ObjFun 1] maps "LeftMotorDir" to P4_7 and nothing else; [ObjFun 2]
    answers 7 to everything; nothing else can be called. *)
Definition sample_runtime : Runtime :=
  {| mp_call_function_1 := fun f arg =>
       match f with
       | ObjFun 1%nat =>
           if mp_obj_equal arg (ObjStr "LeftMotorDir")
           then Return (ObjPin P4_7) else Return mp_const_none
       | ObjFun 2%nat => Return (ObjInt 7)
       | _ => Raise (mp_obj_new_exception_msg mp_type_TypeError "object is not callable")
       end |}.

Definition sample_hal : Hal :=
  {| kCLOCK_Iocon := 13; kCLOCK_Gpio0 := 14; kCLOCK_Gpio4 := 521;
     IOCON := 1073745920; GPIO := 1074315264;
     IOCON_MODE_INACT := 0; GPIO_PULLDOWN := 16; GPIO_PULLUP := 32; GPIO_REPEATER := 48;
     GPIO_MODE_INPUT := 0; GPIO_MODE_OUTPUT_PP := 4096; GPIO_MODE_OUTPUT_OD := 6144;
     GPIO_MODE_AF_PP := 8192; GPIO_MODE_AF_OD := 10240; GPIO_MODE_ANALOG := 16384 |}.

Definition MyMapperDict : mp_obj_t :=
  ObjDict [ (ObjStr "LeftMotorDir", Some (ObjPin P0_4)); (ObjStr "spare", Some (ObjInt 12)) ].

Definition out_pp_high : pin_init_t :=
  {| args_mode := 4096; args_pull := mp_const_none; args_af := 4;
     args_val0 := Some (ObjBool true); args_alt := 0;
     args_inv := false; args_flt := false |}.

Definition alt2_pulled_up : pin_init_t :=
  {| args_mode := 8192; args_pull := ObjInt 32; args_af := 4;
     args_val0 := None; args_alt := 2;
     args_inv := true; args_flt := true |}.

Definition default_args (mode : Z) : pin_init_t :=
  {| args_mode := mode; args_pull := mp_const_none; args_af := 4;
     args_val0 := None; args_alt := 0; args_inv := false; args_flt := false |}.

(** The argument parser of the sample environment.  Positional
    arguments fill the table from its first row and may not reach a
    keyword-only row; a row without a positional argument is looked
    up by name among the keywords; a required row that is missing is
    an error, an optional one takes its default; a value is converted
    by the kind of its row; arguments that are left over are an
    error. *)
Definition convert_arg (kind : mp_arg_kind) (given : mp_obj_t) : result mp_arg_val_t :=
  match kind with
  | MP_ARG_BOOL => Return (u_bool (mp_obj_is_true given))
  | MP_ARG_INT =>
      match mp_obj_get_int given with
      | Return n => Return (u_int n)
      | Raise e => Raise e
      end
  | MP_ARG_OBJ => Return (u_obj (Some given))
  end.

Definition arg_error (msg : string) : mp_exception :=
  mp_obj_new_exception_msg mp_type_TypeError msg.

(** The values of the rows and the number of keywords used. *)
Fixpoint parse_rows (pos : list mp_obj_t) (kws : mp_map_t) (allowed : list mp_arg_t)
  : result (list mp_arg_val_t * nat) :=
  match allowed with
  | [] =>
      match pos with
      | [] => Return ([], 0%nat)
      | _ :: _ => Raise (arg_error "extra positional arguments given")
      end
  | row :: allowed' =>
      let continue_with (v : mp_arg_val_t) (pos' : list mp_obj_t) (used : nat) :=
        match parse_rows pos' kws allowed' with
        | Return (vs, n) => Return (v :: vs, (used + n)%nat)
        | Raise e => Raise e
        end in
      match pos with
      | given :: pos' =>
          if MP_ARG_KW_ONLY row
          then Raise (arg_error "extra positional arguments given")
          else match convert_arg (arg_kind row) given with
               | Return v => continue_with v pos' 0%nat
               | Raise e => Raise e
               end
      | [] =>
          match mp_map_lookup kws (ObjStr (qst row)) with
          | Some (_, Some given) =>
              match convert_arg (arg_kind row) given with
              | Return v => continue_with v [] 1%nat
              | Raise e => Raise e
              end
          | _ =>
              if MP_ARG_REQUIRED row
              then Raise (mp_obj_new_exception_msg_varg mp_type_TypeError
                            "'%q' argument required" [ArgStr (qst row)])
              else continue_with (defval row) [] 0%nat
          end
      end
  end.

Definition sample_parse (pos : list mp_obj_t) (kws : mp_map_t) (allowed : list mp_arg_t)
  : result pin_init_t :=
  match parse_rows pos kws allowed with
  | Raise e => Raise e
  | Return (vals, used) =>
      if Nat.ltb used (List.length kws)
      then Raise (arg_error "extra keyword arguments given")
      else
        match vals with
        | [u_int mode; u_obj (Some pull); u_int af_; u_obj val0; u_int alt;
           u_bool inv; u_bool flt] =>
            Return {| args_mode := mode; args_pull := pull; args_af := af_;
                      args_val0 := val0; args_alt := alt;
                      args_inv := inv; args_flt := flt |}
        | _ => Raise (arg_error "bad argument table")
        end
  end.

Definition sample_binding : Binding :=
  {| mp_arg_parse_all := sample_parse;
     reinterpret_as_pin := fun _ =>
       {| name := ""; port := 0; pin := 0; gpio := 0; af := [] |} |}.

(** A read-back in which P0_4 is a pulled-up digital input and P4_7
    a digital pin on its alternate function 2. *)
Definition sample_readback : Readback :=
  {| GPIO_MODE_DIGITAL := 256;
     pin_get_mode := fun p => if port p =? 0 then 256 else 258;
     pin_get_pull := fun p => if port p =? 0 then 32 else 0;
     pin_get_af := fun p => 2 |}.

(** A table with a key that is not a str. *)
Definition IntKeyDict : mp_obj_t := ObjDict [ (ObjInt 5, Some (ObjPin P4_7)) ].

(** A table whose values are all pins, installed alone. *)
Definition st_pin_dict : pin_class_state :=
  set_map_dict (ObjDict [ (ObjStr "LeftMotorDir", Some (ObjPin P0_4)) ]) pin_init0.

(** Output push-pull on alternate function 7, inverted. *)
Definition out_pp_alt7 : pin_init_t :=
  {| args_mode := 4096; args_pull := mp_const_none; args_af := 0;
     args_val0 := None; args_alt := 7; args_inv := true; args_flt := true |}.

Definition st_mapper_and_dict : pin_class_state :=
  set_map_dict MyMapperDict (set_mapper (ObjFun 1) pin_init0).

Definition st_bad_mapper : pin_class_state := set_mapper (ObjFun 2) pin_init0.

Definition bad_mode : pin_init_t :=
  {| args_mode := 5; args_pull := mp_const_none; args_af := 4;
     args_val0 := Some (ObjBool true); args_alt := 0;
     args_inv := false; args_flt := false |}.

Definition bad_pull : pin_init_t :=
  {| args_mode := 4096; args_pull := ObjInt 64; args_af := 4;
     args_val0 := Some (ObjBool true); args_alt := 0;
     args_inv := false; args_flt := false |}.

Definition input_pulled_down : pin_init_t :=
  {| args_mode := 0; args_pull := ObjInt 16; args_af := 4;
     args_val0 := Some (ObjInt 1); args_alt := 0;
     args_inv := false; args_flt := true |}.

Definition out_od_plain : pin_init_t :=
  {| args_mode := 6144; args_pull := mp_const_none; args_af := 4;
     args_val0 := None; args_alt := 0;
     args_inv := false; args_flt := false |}.

(** ** Proof automation *)

Ltac unfold_trace :=
  unfold when, lift, emit, ret, nlr_raise, bind, outcome, events in *.

(** Case analysis on a scrutinee that is not itself waiting for one. *)
Ltac break_match :=
  match goal with
  | |- context [match ?e with _ => _ end] =>
      lazymatch e with
      | context [match _ with _ => _ end] => fail
      | _ => destruct e eqn:?
      end
  end.

(** ** Runs on the sample environment *)

Example resolve_X1 :
  @pin_find sample_runtime sample_board pin_init0 (ObjStr "X1") = ([], Return (ObjPin P0_4)).
Proof. reflexivity. Qed.

Example resolve_P4_7_debug :
  @pin_find sample_runtime sample_board (set_debug true pin_init0) (ObjStr "P4_7")
  = ([EvPrintf "Pin.cpu maps "; EvPrint (ObjStr "P4_7") PRINT_REPR; EvPrintf " to ";
      EvPrint (ObjPin P4_7) PRINT_STR; EvPrintf newline],
     Return (ObjPin P4_7)).
Proof. reflexivity. Qed.

Example resolve_with_mapper_and_dict :
  @pin_find sample_runtime sample_board
    (set_map_dict MyMapperDict (set_mapper (ObjFun 1) pin_init0)) (ObjStr "LeftMotorDir")
  = ([EvCall (ObjFun 1) (ObjStr "LeftMotorDir")], Return (ObjPin P4_7)).
Proof. reflexivity. Qed.

Example resolve_unknown :
  outcome (@pin_find sample_runtime sample_board pin_init0 (ObjStr "Z9"))
  = Raise (InvalidIdentifier "Z9").
Proof. reflexivity. Qed.

Example resolve_unknown_number :
  outcome (@pin_find sample_runtime sample_board pin_init0 (ObjInt 5))
  = Raise (bad_implicit_conversion (ObjInt 5)).
Proof. reflexivity. Qed.

Example configure_out_pp_high :
  @pin_obj_init_helper sample_hal P0_4 out_pp_high
  = ([CLOCK_EnableClock 13; IOCON_PinMuxSet 1073745920 0 4 768;
      CLOCK_EnableClock 14; GPIO_WritePinOutput 1074315264 0 4 true;
      DIRSET_write 1074315264 0 16],
     Return mp_const_none).
Proof. vm_compute. reflexivity. Qed.

Example parse_keyword_mode :
  sample_parse [] [(ObjStr "mode", Some (ObjInt 0)); (ObjStr "alt", Some (ObjInt 2))]
    allowed_args
  = Return {| args_mode := 0; args_pull := mp_const_none; args_af := 4;
              args_val0 := None; args_alt := 2; args_inv := false; args_flt := false |}.
Proof. reflexivity. Qed.

Example parse_positional_value :
  sample_parse [ObjInt 4096; mp_const_none; ObjInt 4; ObjBool true] [] allowed_args
  = Raise (arg_error "extra positional arguments given").
Proof. reflexivity. Qed.

Example construct_with_keyword_mode :
  hardware_of (events (@mp_pin_make_new sample_runtime sample_board sample_hal sample_binding
                         pin_init0 (ObjStr "X1") [] [(ObjStr "mode", Some (ObjInt 0))]))
  = [CLOCK_EnableClock 13; IOCON_PinMuxSet 1073745920 0 4 768;
     CLOCK_EnableClock 14; DIRCLR_write 1074315264 0 16].
Proof. reflexivity. Qed.

Example configure_alt2 :
  @pin_obj_init_helper sample_hal P4_7 alt2_pulled_up
  = ([CLOCK_EnableClock 13; IOCON_PinMuxSet 1073745920 4 7 418], Return mp_const_none).
Proof. vm_compute. reflexivity. Qed.

(** ** Properties of the resolver *)

Section ResolverFacts.
Context {rt : Runtime} {board : Board}.
Implicit Types (st : pin_class_state) (x v : mp_obj_t).

Ltac run_pin_find :=
  unfold calls, diagnostics, pin_find, debug_maps, call_function_1, printf, mp_obj_print,
    override_table_entry, board_pin, cpu_pin, value, unresolved in *;
  unfold_trace.

(** The result of [pin_find] as a function of the state and the
    identifier alone, strategy after strategy. *)
Lemma pin_find_outcome st x :
  outcome (pin_find st x) =
  if MP_OBJ_IS_TYPE x pin_type then Return x
  else
    let rest :=
      match override_table_entry st x with
      | Some v => Return v
      | None =>
          match board_pin x with
          | Some p => Return (ObjPin p)
          | None =>
              match cpu_pin x with
              | Some p => Return (ObjPin p)
              | None => unresolved x
              end
          end
      end in
    if is_none (pin_class_mapper st) then rest
    else match mp_call_function_1 (pin_class_mapper st) x with
         | Raise e => Raise e
         | Return v =>
             if is_none v then rest
             else if MP_OBJ_IS_TYPE v pin_type then Return v
                  else Raise InvalidMapperResult
         end.
Proof.
  run_pin_find.
  destruct (pin_class_debug st);
    repeat (break_match; simpl in *; try congruence; subst).
Qed.

(** The mapper is called at most once, and only for an identifier
    that is not a pin. *)
Lemma pin_find_calls st x :
  calls (pin_find st x) =
  if MP_OBJ_IS_TYPE x pin_type then []
  else if is_none (pin_class_mapper st) then []
       else [EvCall (pin_class_mapper st) x].
Proof.
  run_pin_find.
  destruct (pin_class_debug st);
    repeat (break_match; simpl in *; try congruence; subst).
Qed.

Lemma pin_find_quiet st x :
  pin_class_debug st = false -> diagnostics (pin_find st x) = [].
Proof.
  intros Hd. run_pin_find. rewrite Hd.
  repeat (break_match; simpl in *; try congruence; subst).
Qed.

Lemma unresolved_str (s : string) : unresolved (ObjStr s) = Raise (InvalidIdentifier s).
Proof. reflexivity. Qed.

Lemma unresolved_not_str x :
  MP_OBJ_IS_TYPE x mp_type_str = false -> unresolved x = Raise (bad_implicit_conversion x).
Proof. destruct x; simpl; try reflexivity; discriminate. Qed.

Lemma exceptions_differ x : unresolved x <> Raise InvalidMapperResult.
Proof. destruct x; discriminate. Qed.

(** Without a mapper the mapper's error cannot occur. *)
Lemma no_mapper_no_mapper_error st x :
  is_none (pin_class_mapper st) = true ->
  outcome (pin_find st x) <> Raise InvalidMapperResult.
Proof.
  intros Hm. rewrite pin_find_outcome, Hm. cbv beta iota zeta.
  destruct (MP_OBJ_IS_TYPE x pin_type); [discriminate |].
  destruct (override_table_entry st x); [discriminate |].
  destruct (board_pin x); [discriminate |].
  destruct (cpu_pin x); [discriminate |].
  apply exceptions_differ.
Qed.

(** The result when the mapper strategy leaves the identifier
    unresolved. *)
Lemma pin_find_declined st x :
  MP_OBJ_IS_TYPE x pin_type = false -> mapper_declines st x ->
  outcome (pin_find st x) =
  match override_table_entry st x with
  | Some v => Return v
  | None =>
      match board_pin x with
      | Some p => Return (ObjPin p)
      | None =>
          match cpu_pin x with
          | Some p => Return (ObjPin p)
          | None => unresolved x
          end
      end
  end.
Proof.
  intros Hx Hm. rewrite pin_find_outcome, Hx. cbv zeta.
  destruct Hm as [Hm | Hm]; rewrite Hm.
  - reflexivity.
  - destruct (is_none (pin_class_mapper st)); reflexivity.
Qed.

Definition resolves st x v : Prop := outcome (pin_find st x) = Return v.

(** X21. The order of the strategies.  [pin_find] tries its strategies in
    a fixed order and the first match wins: (1) an identifier that is
    a pin is returned unchanged, and the mapper is not called; (2)
    otherwise an installed mapper is called, once, and its pin answer
    is returned; (3) when the mapper does not resolve, the entry of an
    installed override table is returned; (4) then the board pins are
    consulted; (5) then the cpu pins; (6) when nothing matches, the
    call fails: with the invalid-identifier error for an identifier
    that is a str, and with the [TypeError] of the conversion to str
    for any other.  (7) In particular, when the mapper and the
    override table would resolve the same identifier to different
    pins, the mapper's pin is returned. *)
Theorem pin_find_resolution_order st x :
  (MP_OBJ_IS_TYPE x pin_type = true ->
     resolves st x x /\ calls (pin_find st x) = []) /\
  (MP_OBJ_IS_TYPE x pin_type = false ->
     is_none (pin_class_mapper st) = false ->
     calls (pin_find st x) = [EvCall (pin_class_mapper st) x] /\
     forall v, mp_call_function_1 (pin_class_mapper st) x = Return v ->
       is_none v = false -> MP_OBJ_IS_TYPE v pin_type = true ->
       resolves st x v) /\
  (MP_OBJ_IS_TYPE x pin_type = false -> mapper_declines st x ->
     forall v, override_table_entry st x = Some v -> resolves st x v) /\
  (MP_OBJ_IS_TYPE x pin_type = false -> mapper_declines st x ->
     override_table_entry st x = None ->
     forall p, board_pin x = Some p -> resolves st x (ObjPin p)) /\
  (MP_OBJ_IS_TYPE x pin_type = false -> mapper_declines st x ->
     override_table_entry st x = None -> board_pin x = None ->
     forall p, cpu_pin x = Some p -> resolves st x (ObjPin p)) /\
  (MP_OBJ_IS_TYPE x pin_type = false -> mapper_declines st x ->
     override_table_entry st x = None -> board_pin x = None -> cpu_pin x = None ->
     (forall s, x = ObjStr s -> outcome (pin_find st x) = Raise (InvalidIdentifier s)) /\
     (MP_OBJ_IS_TYPE x mp_type_str = false ->
      outcome (pin_find st x) = Raise (bad_implicit_conversion x))) /\
  (forall p q, MP_OBJ_IS_TYPE x pin_type = false ->
     is_none (pin_class_mapper st) = false ->
     mp_call_function_1 (pin_class_mapper st) x = Return (ObjPin p) ->
     override_table_entry st x = Some (ObjPin q) -> p <> q ->
     resolves st x (ObjPin p)).
Proof.
  unfold resolves.
  pose proof (pin_find_declined st x) as Hrest.
  refine (conj _ (conj _ (conj _ (conj _ (conj _ (conj _ _)))))).
  - intros Hx. split.
    + now rewrite pin_find_outcome, Hx.
    + now rewrite pin_find_calls, Hx.
  - intros Hx Hm. split.
    + now rewrite pin_find_calls, Hx, Hm.
    + intros v Hc Hv Hp. now rewrite pin_find_outcome, Hx, Hm, Hc, Hv, Hp.
  - intros Hx Hm v Ht. now rewrite Hrest, Ht.
  - intros Hx Hm Ht p Hb. now rewrite Hrest, Ht, Hb.
  - intros Hx Hm Ht Hb p Hc. now rewrite Hrest, Ht, Hb, Hc.
  - intros Hx Hm Ht Hb Hc. rewrite Hrest, Ht, Hb, Hc by assumption. split.
    + intros s ->. apply unresolved_str.
    + apply unresolved_not_str.
  - intros p q Hx Hm Hc _ _. now rewrite pin_find_outcome, Hx, Hm, Hc.
Qed.

(** C1. An identifier that no strategy resolves and that is not a str:
    in the initial state, on any board, [pin_find] of an integer ends
    with the [TypeError] raised while the text of the
    invalid-identifier error is being built, and so with an exception
    that is not the invalid-identifier error of any text. *)
Theorem pin_find_unresolved_number (n : Z) :
  pin_find pin_init0 (ObjInt n) = ([], Raise (bad_implicit_conversion (ObjInt n))) /\
  exc_type (bad_implicit_conversion (ObjInt n)) = mp_type_TypeError /\
  forall s, bad_implicit_conversion (ObjInt n) <> InvalidIdentifier s.
Proof.
  split; [reflexivity |]. split; [reflexivity |].
  intros s. discriminate.
Qed.

(** C6. With a mapper installed, an identifier that is not itself a
    pin is handed to the mapper (one call, with that identifier).  An
    answer other than [None] that is not a pin makes [pin_find] fail
    with the mapper-result error.  The answer [None] makes
    [pin_find] fall through, for the same identifier, to the override
    table, then to the board pins, then to the cpu pins: it returns
    the table's entry if there is one, else the board pin of that
    name, else the cpu pin of that name, and else fails as an
    unresolved identifier does; this is what the run without a
    mapper gives, and the mapper-result error is not raised. *)
Theorem pin_find_mapper_answer_checked st x :
  is_none (pin_class_mapper st) = false ->
  MP_OBJ_IS_TYPE x pin_type = false ->
  calls (pin_find st x) = [EvCall (pin_class_mapper st) x] /\
  (forall v, mp_call_function_1 (pin_class_mapper st) x = Return v ->
     is_none v = false -> MP_OBJ_IS_TYPE v pin_type = false ->
     outcome (pin_find st x) = Raise InvalidMapperResult) /\
  (mp_call_function_1 (pin_class_mapper st) x = Return mp_const_none ->
     outcome (pin_find st x) = outcome (pin_find (set_mapper mp_const_none st) x) /\
     outcome (pin_find st x) <> Raise InvalidMapperResult /\
     (forall v, override_table_entry st x = Some v ->
        outcome (pin_find st x) = Return v) /\
     (override_table_entry st x = None ->
      forall p, board_pin x = Some p ->
        outcome (pin_find st x) = Return (ObjPin p)) /\
     (override_table_entry st x = None -> board_pin x = None ->
      forall p, cpu_pin x = Some p ->
        outcome (pin_find st x) = Return (ObjPin p)) /\
     (override_table_entry st x = None -> board_pin x = None -> cpu_pin x = None ->
      (forall s, x = ObjStr s -> outcome (pin_find st x) = Raise (InvalidIdentifier s)) /\
      (MP_OBJ_IS_TYPE x mp_type_str = false ->
       outcome (pin_find st x) = Raise (bad_implicit_conversion x)))).
Proof.
  intros Hm Hx. split; [| split].
  - now rewrite pin_find_calls, Hx, Hm.
  - intros v Hc Hv Hp. now rewrite pin_find_outcome, Hx, Hm, Hc, Hv, Hp.
  - intros Hc.
    assert (Heq : outcome (pin_find st x)
                  = outcome (pin_find (set_mapper mp_const_none st) x)).
    { rewrite !pin_find_outcome, Hx, Hm, Hc. reflexivity. }
    pose proof (pin_find_declined st x Hx (or_intror Hc)) as Hrest.
    refine (conj Heq (conj _ (conj _ (conj _ (conj _ _))))).
    + rewrite Heq. now apply no_mapper_no_mapper_error.
    + intros v Ht. now rewrite Hrest, Ht.
    + intros Ht p Hb. now rewrite Hrest, Ht, Hb.
    + intros Ht Hb p Hp. now rewrite Hrest, Ht, Hb, Hp.
    + intros Ht Hb Hp. rewrite Hrest, Ht, Hb, Hp. split.
      * intros s ->. apply unresolved_str.
      * apply unresolved_not_str.
Qed.

(** C8. The debug flag does not change what [pin_find] does: for any
    state and identifier, two runs that differ only in the flag end
    the same way (same object returned, or same exception) and make
    the same calls; with the flag off nothing is printed. *)
Theorem pin_find_debug_no_effect st x (d1 d2 : bool) :
  outcome (pin_find (set_debug d1 st) x) = outcome (pin_find (set_debug d2 st) x) /\
  calls (pin_find (set_debug d1 st) x) = calls (pin_find (set_debug d2 st) x) /\
  diagnostics (pin_find (set_debug false st) x) = [].
Proof.
  split; [| split].
  - rewrite !pin_find_outcome. reflexivity.
  - rewrite !pin_find_calls. reflexivity.
  - now apply pin_find_quiet.
Qed.

(** C10. A hit in the override table is returned as it is stored:
    when the lookup is reached (the identifier is not a pin and the
    mapper did not resolve it), a table is installed and it holds the
    identifier as a key with a stored value, [pin_find] returns that
    value, whatever its type, and raises nothing. *)
Theorem pin_find_override_hit_unchecked st x k v :
  MP_OBJ_IS_TYPE x pin_type = false ->
  mapper_declines st x ->
  is_none (pin_class_map_dict st) = false ->
  mp_map_lookup (mp_obj_dict_get_map (pin_class_map_dict st)) x = Some (k, Some v) ->
  outcome (pin_find st x) = Return v.
Proof.
  intros Hx Hm Hd Hl.
  assert (Ht : override_table_entry st x = Some v).
  { unfold override_table_entry. now rewrite Hd, Hl. }
  rewrite pin_find_outcome, Hx, Ht. cbv zeta.
  destruct Hm as [Hm | Hm]; rewrite Hm.
  - reflexivity.
  - destruct (is_none (pin_class_mapper st)); reflexivity.
Qed.

End ResolverFacts.

(** *** The resolver on the sample environment *)

Lemma pin_find_resolution_order_witness :
  @resolves sample_runtime sample_board pin_init0 (ObjPin P0_4) (ObjPin P0_4) /\
  @resolves sample_runtime sample_board st_mapper_and_dict (ObjStr "LeftMotorDir") (ObjPin P4_7) /\
  @resolves sample_runtime sample_board st_mapper_and_dict (ObjStr "spare") (ObjInt 12) /\
  @resolves sample_runtime sample_board st_mapper_and_dict (ObjStr "X1") (ObjPin P0_4) /\
  @resolves sample_runtime sample_board st_mapper_and_dict (ObjStr "P4_7") (ObjPin P4_7) /\
  outcome (@pin_find sample_runtime sample_board st_mapper_and_dict (ObjStr "Z9"))
  = Raise (InvalidIdentifier "Z9") /\
  outcome (@pin_find sample_runtime sample_board st_mapper_and_dict (ObjInt 5))
  = Raise (bad_implicit_conversion (ObjInt 5)).
Proof.
  pose proof (@pin_find_resolution_order sample_runtime sample_board) as T.
  refine (conj _ (conj _ (conj _ (conj _ (conj _ (conj _ _)))))).
  - apply (proj1 (T pin_init0 (ObjPin P0_4))). reflexivity.
  - apply (proj2 (proj2 (proj2 (proj2 (proj2 (proj2
             (T st_mapper_and_dict (ObjStr "LeftMotorDir"))))))) P4_7 P0_4);
      try reflexivity.
    discriminate.
  - apply (proj1 (proj2 (proj2 (T st_mapper_and_dict (ObjStr "spare")))));
      [reflexivity | right; reflexivity | reflexivity].
  - apply (proj1 (proj2 (proj2 (proj2 (T st_mapper_and_dict (ObjStr "X1"))))));
      [reflexivity | right; reflexivity | reflexivity | reflexivity].
  - apply (proj1 (proj2 (proj2 (proj2 (proj2 (T st_mapper_and_dict (ObjStr "P4_7")))))));
      [reflexivity | right; reflexivity | reflexivity | reflexivity | reflexivity].
  - refine (proj1 (proj1 (proj2 (proj2 (proj2 (proj2 (proj2
              (T st_mapper_and_dict (ObjStr "Z9")))))))
              eq_refl (or_intror eq_refl) eq_refl eq_refl eq_refl) "Z9" eq_refl).
  - refine (proj2 (proj1 (proj2 (proj2 (proj2 (proj2 (proj2
              (T st_mapper_and_dict (ObjInt 5)))))))
              eq_refl (or_intror eq_refl) eq_refl eq_refl eq_refl) eq_refl).
Defined.

Lemma pin_find_mapper_answer_checked_witness :
  outcome (@pin_find sample_runtime sample_board st_bad_mapper (ObjStr "X1"))
  = Raise InvalidMapperResult /\
  outcome (@pin_find sample_runtime sample_board st_mapper_and_dict (ObjStr "spare"))
  = Return (ObjInt 12) /\
  outcome (@pin_find sample_runtime sample_board st_mapper_and_dict (ObjStr "X1"))
  = Return (ObjPin P0_4) /\
  outcome (@pin_find sample_runtime sample_board st_mapper_and_dict (ObjStr "P4_7"))
  = Return (ObjPin P4_7) /\
  outcome (@pin_find sample_runtime sample_board st_mapper_and_dict (ObjStr "Z9"))
  = Raise (InvalidIdentifier "Z9") /\
  outcome (@pin_find sample_runtime sample_board st_mapper_and_dict (ObjStr "X1"))
  = outcome (@pin_find sample_runtime sample_board
               (set_mapper mp_const_none st_mapper_and_dict) (ObjStr "X1")).
Proof.
  assert (Hm : is_none (pin_class_mapper st_mapper_and_dict) = false) by reflexivity.
  pose proof (fun x Hx Hc =>
                proj2 (proj2 (@pin_find_mapper_answer_checked sample_runtime sample_board
                                st_mapper_and_dict x Hm Hx)) Hc) as T.
  refine (conj _ (conj _ (conj _ (conj _ (conj _ _))))).
  - assert (Hb : is_none (pin_class_mapper st_bad_mapper) = false) by reflexivity.
    assert (Hx : MP_OBJ_IS_TYPE (ObjStr "X1") pin_type = false) by reflexivity.
    apply (proj1 (proj2 (@pin_find_mapper_answer_checked sample_runtime sample_board
                           st_bad_mapper (ObjStr "X1") Hb Hx)) (ObjInt 7));
      reflexivity.
  - exact (proj1 (proj2 (proj2 (T (ObjStr "spare") eq_refl eq_refl))) (ObjInt 12) eq_refl).
  - exact (proj1 (proj2 (proj2 (proj2 (T (ObjStr "X1") eq_refl eq_refl))))
             eq_refl P0_4 eq_refl).
  - exact (proj1 (proj2 (proj2 (proj2 (proj2 (T (ObjStr "P4_7") eq_refl eq_refl)))))
             eq_refl eq_refl P4_7 eq_refl).
  - exact (proj1 (proj2 (proj2 (proj2 (proj2 (proj2 (T (ObjStr "Z9") eq_refl eq_refl)))))
                    eq_refl eq_refl eq_refl) "Z9" eq_refl).
  - exact (proj1 (T (ObjStr "X1") eq_refl eq_refl)).
Defined.

Lemma pin_find_override_hit_unchecked_witness :
  outcome (@pin_find sample_runtime sample_board st_mapper_and_dict (ObjStr "spare"))
  = Return (ObjInt 12).
Proof.
  apply (@pin_find_override_hit_unchecked sample_runtime sample_board
           st_mapper_and_dict (ObjStr "spare") (ObjStr "spare") (ObjInt 12)).
  - reflexivity.
  - right. reflexivity.
  - reflexivity.
  - reflexivity.
Defined.

(** ** Properties of the configurator *)

Lemma to_uint_range z : 0 <= to_uint z < 2 ^ 32.
Proof. unfold to_uint. apply Z.mod_pos_bound. reflexivity. Qed.

Lemma to_uint_small z : 0 <= z < 2 ^ 32 -> to_uint z = z.
Proof. intros H. unfold to_uint. now apply Z.mod_small. Qed.

(** Truncation to 32 bits goes through a bitwise or. *)
Lemma to_uint_lor a b : to_uint (Z.lor a b) = Z.lor (to_uint a) (to_uint b).
Proof.
  unfold to_uint. rewrite <- !Z.land_ones by lia. apply Z.land_lor_distr_l.
Qed.

Lemma lor_lt_pow2 a b n :
  0 <= a < 2 ^ n -> 0 <= b < 2 ^ n -> 0 <= Z.lor a b < 2 ^ n.
Proof.
  intros Ha Hb.
  assert (Hnn : 0 <= Z.lor a b) by (apply Z.lor_nonneg; lia).
  split; [exact Hnn |].
  destruct (Z.eq_dec a 0) as [-> | Hna]; [now rewrite Z.lor_0_l |].
  destruct (Z.eq_dec b 0) as [-> | Hnb]; [now rewrite Z.lor_0_r |].
  assert (Hne : Z.lor a b <> 0) by (rewrite Z.lor_eq_0_iff; lia).
  apply Z.log2_lt_pow2; [lia |].
  rewrite Z.log2_lor by lia.
  apply Z.max_lub_lt; apply Z.log2_lt_pow2; lia.
Qed.

Lemma mode_field_range m : 0 <= Z.land m 4095 < 2 ^ 12.
Proof.
  change 4095 with (Z.ones 12). rewrite Z.land_ones by lia.
  apply Z.mod_pos_bound. reflexivity.
Qed.

Lemma flag_bit_range (b : bool) (n : Z) :
  0 <= n < 32 -> 0 <= Z.shiftl (Z.b2z b) n < 2 ^ 32.
Proof.
  intros Hn. rewrite Z.shiftl_mul_pow2 by lia.
  assert (0 < 2 ^ n) by (apply Z.pow_pos_nonneg; lia).
  assert (2 ^ n < 2 ^ 32) by (apply Z.pow_lt_mono_r; lia).
  destruct b; simpl Z.b2z; lia.
Qed.

Section ConfiguratorFacts.
Context {hal : Hal}.
Implicit Types (self : pin_obj_t) (args : pin_init_t).

Lemma IS_GPIO_MODE_In m : IS_GPIO_MODE m = true <-> In m gpio_mode_set.
Proof.
  unfold IS_GPIO_MODE. rewrite existsb_exists. split.
  - intros [y [Hy He]]. apply Z.eqb_eq in He. now subst.
  - intros Hi. exists m. split; [exact Hi | apply Z.eqb_refl].
Qed.

Lemma IS_GPIO_PULL_In p : IS_GPIO_PULL p = true <-> In p gpio_pull_set.
Proof.
  unfold IS_GPIO_PULL. rewrite existsb_exists. split.
  - intros [y [Hy He]]. apply Z.eqb_eq in He. now subst.
  - intros Hi. exists p. split; [exact Hi | apply Z.eqb_refl].
Qed.

Lemma get_pull_range args pull : get_pull args = Return pull -> 0 <= pull < 2 ^ 32.
Proof.
  unfold get_pull. intros H.
  destruct (negb (is_none (args_pull args))).
  - destruct (mp_obj_get_int (args_pull args)); [| discriminate].
    injection H as <-. apply to_uint_range.
  - injection H as <-. apply to_uint_range.
Qed.

(** The word handed to [IOCON_PinMuxSet] is the 32-bit value of the
    documented control word. *)
Lemma modefunc_packed args pull :
  0 <= pull < 2 ^ 32 ->
  modefunc args pull
  = to_uint (packed_control_word (args_alt args) (args_mode args) pull
               (args_inv args) (args_flt args)).
Proof.
  intros Hp. unfold modefunc, packed_control_word.
  rewrite !to_uint_lor.
  rewrite (to_uint_small pull) by exact Hp.
  rewrite (to_uint_small (Z.shiftl (Z.b2z (args_inv args)) 7))
    by (apply flag_bit_range; lia).
  rewrite (to_uint_small (Z.shiftl (Z.b2z (negb (args_flt args))) 9))
    by (apply flag_bit_range; lia).
  rewrite !Z.lor_assoc. reflexivity.
Qed.

Lemma packed_control_word_range alt mode pull inv flt :
  0 <= alt < 2 ^ 31 -> 0 <= pull < 2 ^ 32 ->
  0 <= packed_control_word alt mode pull inv flt < 2 ^ 32.
Proof.
  intros Ha Hp. unfold packed_control_word.
  pose proof (mode_field_range mode) as Hm.
  assert (2 ^ 12 < 2 ^ 32) by reflexivity.
  assert (2 ^ 31 < 2 ^ 32) by reflexivity.
  repeat apply lor_lt_pow2; try lia.
  - change (Z.shiftl 1 8) with 256. lia.
  - apply flag_bit_range; lia.
  - apply flag_bit_range; lia.
Qed.

(** What a request that passes validation does. *)
Lemma pin_obj_init_helper_valid self args pull :
  valid_request args pull ->
  pin_obj_init_helper self args =
  (CLOCK_EnableClock kCLOCK_Iocon
     :: IOCON_PinMuxSet IOCON (port self) (pin self) (modefunc args pull)
     :: (if args_alt args =? 0 then gpio_steps self args else []),
   Return mp_const_none).
Proof.
  intros (Hm & Hg & Hp).
  unfold pin_obj_init_helper, gpio_steps, gpio_clock. unfold_trace.
  rewrite Hm, Hg. simpl. rewrite Hp. simpl.
  repeat (break_match; simpl; try congruence).
Qed.

(** A run that fails has touched nothing. *)
Lemma pin_obj_init_helper_fails_clean self args e :
  outcome (pin_obj_init_helper self args) = Raise e ->
  events (pin_obj_init_helper self args) = [].
Proof.
  unfold pin_obj_init_helper. unfold_trace.
  repeat (break_match; simpl in *; try congruence).
Qed.

(** C2. [pin_obj_init_helper] validates before it applies.  A mode
    outside the set of GPIO modes fails with the invalid-mode error.
    The effective pull is "no pull" when the request leaves it out;
    with a valid mode, an effective pull outside {pull-up, pull-down,
    repeater, none} fails with the invalid-pull error.  In both cases,
    and in any failing run, no clock is enabled and no register is
    written. *)
Theorem pin_obj_init_helper_validates_first self args :
  (~ In (args_mode args) gpio_mode_set ->
     pin_obj_init_helper self args = ([], Raise (InvalidMode (args_mode args)))) /\
  (is_none (args_pull args) = true ->
     get_pull args = Return (to_uint IOCON_MODE_INACT)) /\
  (forall pull, In (args_mode args) gpio_mode_set ->
     get_pull args = Return pull -> ~ In pull gpio_pull_set ->
     pin_obj_init_helper self args = ([], Raise (InvalidPull pull))) /\
  (forall e, outcome (pin_obj_init_helper self args) = Raise e ->
     events (pin_obj_init_helper self args) = []).
Proof.
  refine (conj _ (conj _ (conj _ _))).
  - intros Hm. rewrite <- IS_GPIO_MODE_In in Hm.
    apply not_true_is_false in Hm.
    unfold pin_obj_init_helper. unfold_trace. now rewrite Hm.
  - intros Hn. unfold get_pull. now rewrite Hn.
  - intros pull Hm Hg Hp.
    rewrite <- IS_GPIO_MODE_In in Hm. rewrite <- IS_GPIO_PULL_In in Hp.
    apply not_true_is_false in Hp.
    unfold pin_obj_init_helper. unfold_trace. rewrite Hm, Hg. simpl. now rewrite Hp.
  - intros e. apply pin_obj_init_helper_fails_clean.
Qed.

(** C3. For a request that passes validation, the run starts with the
    IOCON clock enable followed by one write of the pin's mux/control
    register, and the word written is the 32-bit value of
    alt | (mode & 0xFFF) | 1<<8 | pull | inv<<7 | (!flt)<<9, which for
    a non-negative alt is that number itself.  Any GPIO step comes
    after this write. *)
Theorem pin_obj_init_helper_control_word self args pull :
  valid_request args pull ->
  let word := packed_control_word (args_alt args) (args_mode args) pull
                (args_inv args) (args_flt args) in
  events (pin_obj_init_helper self args) =
    CLOCK_EnableClock kCLOCK_Iocon
      :: IOCON_PinMuxSet IOCON (port self) (pin self) (to_uint word)
      :: (if args_alt args =? 0 then gpio_steps self args else []) /\
  (0 <= args_alt args < 2 ^ 31 -> to_uint word = word).
Proof.
  intros Hv word. split.
  - rewrite (pin_obj_init_helper_valid self args pull Hv). unfold events, fst.
    rewrite modefunc_packed; [reflexivity |].
    destruct Hv as (_ & Hg & _). exact (get_pull_range _ _ Hg).
  - intros Ha. apply to_uint_small. apply packed_control_word_range; [exact Ha |].
    destruct Hv as (_ & Hg & _). exact (get_pull_range _ _ Hg).
Qed.

(** C4. For a valid request with alt = 0, after the mux write and the
    bank clock enable: mode INPUT writes the pin's bit to the
    direction-clear register of the port; any other mode writes the
    pin's bit to the direction-set register, preceded by the write of
    the initial level to the pin when the request carries one, and by
    nothing when it does not. *)
Theorem pin_obj_init_helper_gpio_direction self args pull :
  valid_request args pull ->
  args_alt args = 0 ->
  let before := [CLOCK_EnableClock kCLOCK_Iocon;
                 IOCON_PinMuxSet IOCON (port self) (pin self) (modefunc args pull);
                 CLOCK_EnableClock (gpio_clock (port self))] in
  let bit := Z.shiftl 1 (pin self) in
  (args_mode args = GPIO_MODE_INPUT ->
     events (pin_obj_init_helper self args)
     = before ++ [DIRCLR_write (gpio self) (port self) bit]) /\
  (args_mode args <> GPIO_MODE_INPUT ->
     forall v, args_val0 args = Some v ->
     events (pin_obj_init_helper self args)
     = before ++ [GPIO_WritePinOutput GPIO (port self) (pin self) (mp_obj_is_true v);
                  DIRSET_write (gpio self) (port self) bit]) /\
  (args_mode args <> GPIO_MODE_INPUT ->
     args_val0 args = None ->
     events (pin_obj_init_helper self args)
     = before ++ [DIRSET_write (gpio self) (port self) bit]).
Proof.
  intros Hv Ha before bit.
  rewrite (pin_obj_init_helper_valid self args pull Hv), Ha.
  unfold events, fst, gpio_steps, before, bit. simpl.
  refine (conj _ (conj _ _)).
  - intros Hm. rewrite Hm, Z.eqb_refl. reflexivity.
  - intros Hm v Hv0. apply Z.eqb_neq in Hm. rewrite Hm, Hv0. reflexivity.
  - intros Hm Hv0. apply Z.eqb_neq in Hm. rewrite Hm, Hv0. reflexivity.
Qed.

(** C5. For a valid request with alt <> 0 the GPIO steps are skipped:
    the run consists of the IOCON clock enable and the one
    mux/control register write, nothing else. *)
Theorem pin_obj_init_helper_alt_skips_gpio self args pull :
  valid_request args pull ->
  args_alt args <> 0 ->
  pin_obj_init_helper self args =
    ([CLOCK_EnableClock kCLOCK_Iocon;
      IOCON_PinMuxSet IOCON (port self) (pin self) (modefunc args pull)],
     Return mp_const_none).
Proof.
  intros Hv Ha. rewrite (pin_obj_init_helper_valid self args pull Hv).
  apply Z.eqb_neq in Ha. now rewrite Ha.
Qed.

(** C7. For a valid request with alt = 0 the clocks enabled are the
    IOCON clock and then exactly one GPIO bank clock:
    kCLOCK_Gpio0 + port for a port below 4,
    kCLOCK_Gpio4 + port - 4 for a port from 4 on. *)
Theorem pin_obj_init_helper_bank_clock self args pull :
  valid_request args pull ->
  args_alt args = 0 ->
  (port self < 4 ->
     clock_enables (events (pin_obj_init_helper self args))
     = [kCLOCK_Iocon; kCLOCK_Gpio0 + port self]) /\
  (4 <= port self ->
     clock_enables (events (pin_obj_init_helper self args))
     = [kCLOCK_Iocon; kCLOCK_Gpio4 + port self - 4]).
Proof.
  intros Hv Ha.
  rewrite (pin_obj_init_helper_valid self args pull Hv), Ha.
  unfold events, fst, gpio_steps, gpio_clock. simpl.
  split; intros Hp.
  - apply Z.ltb_lt in Hp. rewrite Hp.
    repeat (break_match; simpl; try reflexivity).
  - apply Z.ltb_ge in Hp. rewrite Hp.
    repeat (break_match; simpl; try reflexivity).
Qed.


End ConfiguratorFacts.

(** *** The configurator on the sample environment *)

Lemma valid_out_pp_high : @valid_request sample_hal out_pp_high 0.
Proof. repeat split. Defined.

Lemma valid_alt2_pulled_up : @valid_request sample_hal alt2_pulled_up 32.
Proof. repeat split. Defined.

Lemma valid_input_pulled_down : @valid_request sample_hal input_pulled_down 16.
Proof. repeat split. Defined.

Lemma valid_out_od_plain : @valid_request sample_hal out_od_plain 0.
Proof. repeat split. Defined.

Lemma pin_obj_init_helper_validates_first_witness :
  @pin_obj_init_helper sample_hal P0_4 bad_mode
  = ([], Raise (InvalidMode 5)) /\
  @pin_obj_init_helper sample_hal P0_4 bad_pull
  = ([], Raise (InvalidPull 64)) /\
  @get_pull sample_hal out_pp_high = Return 0.
Proof.
  refine (conj _ (conj _ _)).
  - apply (proj1 (@pin_obj_init_helper_validates_first sample_hal P0_4 bad_mode)).
    vm_compute. intuition discriminate.
  - apply (proj1 (proj2 (proj2
             (@pin_obj_init_helper_validates_first sample_hal P0_4 bad_pull))) 64).
    + vm_compute. tauto.
    + reflexivity.
    + vm_compute. intuition discriminate.
  - apply (proj1 (proj2
             (@pin_obj_init_helper_validates_first sample_hal P0_4 out_pp_high))).
    reflexivity.
Defined.

Lemma pin_obj_init_helper_control_word_witness :
  events (@pin_obj_init_helper sample_hal P4_7 alt2_pulled_up)
  = [CLOCK_EnableClock 13; IOCON_PinMuxSet 1073745920 4 7 418].
Proof.
  exact (proj1 (@pin_obj_init_helper_control_word sample_hal P4_7 alt2_pulled_up 32
                  valid_alt2_pulled_up)).
Defined.

Lemma pin_obj_init_helper_gpio_direction_witness :
  events (@pin_obj_init_helper sample_hal P0_4 input_pulled_down)
  = [CLOCK_EnableClock 13; IOCON_PinMuxSet 1073745920 0 4 272;
     CLOCK_EnableClock 14; DIRCLR_write 1074315264 0 16] /\
  events (@pin_obj_init_helper sample_hal P0_4 out_pp_high)
  = [CLOCK_EnableClock 13; IOCON_PinMuxSet 1073745920 0 4 768;
     CLOCK_EnableClock 14; GPIO_WritePinOutput 1074315264 0 4 true;
     DIRSET_write 1074315264 0 16] /\
  events (@pin_obj_init_helper sample_hal P4_7 out_od_plain)
  = [CLOCK_EnableClock 13; IOCON_PinMuxSet 1073745920 4 7 2816;
     CLOCK_EnableClock 521; DIRSET_write 1074315264 4 128].
Proof.
  refine (conj _ (conj _ _)).
  - apply (proj1 (@pin_obj_init_helper_gpio_direction sample_hal P0_4 input_pulled_down 16
                    valid_input_pulled_down eq_refl)).
    reflexivity.
  - refine (proj1 (proj2 (@pin_obj_init_helper_gpio_direction sample_hal P0_4 out_pp_high 0
                            valid_out_pp_high eq_refl)) _ (ObjBool true) eq_refl).
    discriminate.
  - refine (proj2 (proj2 (@pin_obj_init_helper_gpio_direction sample_hal P4_7 out_od_plain 0
                            valid_out_od_plain eq_refl)) _ eq_refl).
    discriminate.
Defined.

Lemma pin_obj_init_helper_alt_skips_gpio_witness :
  @pin_obj_init_helper sample_hal P4_7 alt2_pulled_up
  = ([CLOCK_EnableClock 13; IOCON_PinMuxSet 1073745920 4 7 418], Return mp_const_none).
Proof.
  apply (@pin_obj_init_helper_alt_skips_gpio sample_hal P4_7 alt2_pulled_up 32
           valid_alt2_pulled_up).
  discriminate.
Defined.

Lemma pin_obj_init_helper_bank_clock_witness :
  clock_enables (events (@pin_obj_init_helper sample_hal P0_4 out_pp_high)) = [13; 14] /\
  clock_enables (events (@pin_obj_init_helper sample_hal P4_7 out_od_plain)) = [13; 521].
Proof.
  split.
  - apply (proj1 (@pin_obj_init_helper_bank_clock sample_hal P0_4 out_pp_high 0
                    valid_out_pp_high eq_refl)).
    reflexivity.
  - apply (proj2 (@pin_obj_init_helper_bank_clock sample_hal P4_7 out_od_plain 0
                    valid_out_od_plain eq_refl)).
    discriminate.
Defined.

(** ** Further properties of the resolver and of the class variables *)

Ltac run_resolver :=
  unfold calls, diagnostics, pin_find, debug_maps, call_function_1, printf, mp_obj_print,
    override_table_entry, board_pin, cpu_pin, value, unresolved in *;
  unfold_trace.

Section ResolverExtras.
Context {rt : Runtime} {board : Board}.
Implicit Types (st : pin_class_state) (x v : mp_obj_t).

Lemma override_table_entry_stored st x v :
  override_table_entry st x = Some v ->
  exists k, In (k, Some v) (mp_obj_dict_get_map (pin_class_map_dict st)).
Proof.
  unfold override_table_entry, mp_map_lookup, value.
  destruct (is_none (pin_class_map_dict st)); [discriminate |].
  destruct (find _ _) as [[k w] |] eqn:Hf; [| discriminate].
  simpl. intros ->. exists k. exact (proj1 (find_some _ _ Hf)).
Qed.

(** X1. When every value stored in the installed override table is a
    pin, whatever [pin_find] returns is a pin, and resolving that
    result again gives it back without calling the mapper. *)
Theorem pin_find_result_is_pin st x v :
  (forall k w, In (k, Some w) (mp_obj_dict_get_map (pin_class_map_dict st)) ->
     MP_OBJ_IS_TYPE w pin_type = true) ->
  outcome (pin_find st x) = Return v ->
  MP_OBJ_IS_TYPE v pin_type = true /\
  outcome (pin_find st v) = Return v /\
  calls (pin_find st v) = [].
Proof.
  intros Htab Hres.
  assert (Hpin : MP_OBJ_IS_TYPE v pin_type = true).
  { rewrite pin_find_outcome in Hres.
    destruct (MP_OBJ_IS_TYPE x pin_type) eqn:Hx; [now injection Hres as <- |].
    assert (Hrest :
      match override_table_entry st x with
      | Some v => Return v
      | None =>
          match board_pin x with
          | Some p => Return (ObjPin p)
          | None =>
              match cpu_pin x with
              | Some p => Return (ObjPin p)
              | None => unresolved x
              end
          end
      end = Return v -> MP_OBJ_IS_TYPE v pin_type = true).
    { destruct (override_table_entry st x) as [w |] eqn:Ht.
      - intros Hw. injection Hw as ->.
        destruct (override_table_entry_stored _ _ _ Ht) as [k Hk]. exact (Htab _ _ Hk).
      - destruct (board_pin x); [intros Hw; now injection Hw as <- |].
        destruct (cpu_pin x); [intros Hw; now injection Hw as <- |].
        destruct x; discriminate. }
    cbv zeta in Hres.
    destruct (is_none (pin_class_mapper st)); [exact (Hrest Hres) |].
    destruct (mp_call_function_1 (pin_class_mapper st) x) as [w | e]; [| discriminate].
    destruct (is_none w); [exact (Hrest Hres) |].
    destruct (MP_OBJ_IS_TYPE w pin_type) eqn:Hw; [| discriminate].
    now injection Hres as <-. }
  split; [exact Hpin |]. split.
  - now rewrite pin_find_outcome, Hpin.
  - now rewrite pin_find_calls, Hpin.
Qed.

(** X2. The ways [pin_find] can fail: never for an identifier that is
    a pin; otherwise with the invalid-identifier error carrying the
    text of an identifier that is a str, or with the [TypeError] of
    the conversion to str for an unresolved identifier that is not a
    str, or, with a mapper installed, with the exception the mapper
    raised or with the mapper-result error for an answer that is
    neither [None] nor a pin. *)
Theorem pin_find_failures st x e :
  outcome (pin_find st x) = Raise e ->
  MP_OBJ_IS_TYPE x pin_type = false /\
  ((exists s, x = ObjStr s /\ e = InvalidIdentifier s) \/
   (MP_OBJ_IS_TYPE x mp_type_str = false /\ e = bad_implicit_conversion x) \/
   (is_none (pin_class_mapper st) = false /\
    (mp_call_function_1 (pin_class_mapper st) x = Raise e \/
     (e = InvalidMapperResult /\
      exists v, mp_call_function_1 (pin_class_mapper st) x = Return v /\
                is_none v = false /\ MP_OBJ_IS_TYPE v pin_type = false)))).
Proof.
  rewrite pin_find_outcome. cbv zeta.
  destruct (MP_OBJ_IS_TYPE x pin_type); [discriminate |].
  assert (Hrest :
    match override_table_entry st x with
    | Some v => Return v
    | None =>
        match board_pin x with
        | Some p => Return (ObjPin p)
        | None =>
            match cpu_pin x with
            | Some p => Return (ObjPin p)
            | None => unresolved x
            end
        end
    end = Raise e ->
    (exists s, x = ObjStr s /\ e = InvalidIdentifier s) \/
    (MP_OBJ_IS_TYPE x mp_type_str = false /\ e = bad_implicit_conversion x)).
  { destruct (override_table_entry st x); [discriminate |].
    destruct (board_pin x); [discriminate |].
    destruct (cpu_pin x); [discriminate |].
    destruct (MP_OBJ_IS_TYPE x mp_type_str) eqn:Hs.
    - destruct x; try discriminate. rewrite unresolved_str.
      intros H. injection H as <-. left. eauto.
    - rewrite (unresolved_not_str x Hs). intros H. injection H as <-. right. auto. }
  intros H. split; [reflexivity |].
  destruct (is_none (pin_class_mapper st)) eqn:Hm.
  { destruct (Hrest H) as [H' | H']; auto. }
  destruct (mp_call_function_1 (pin_class_mapper st) x) as [w | e'] eqn:Hc.
  - destruct (is_none w) eqn:Hw.
    { destruct (Hrest H) as [H' | H']; auto. }
    destruct (MP_OBJ_IS_TYPE w pin_type) eqn:Hp; [discriminate |].
    injection H as <-. right. right. split; [reflexivity |]. right.
    split; [reflexivity |]. exists w. auto.
  - injection H as <-. right. right. split; [reflexivity |]. now left.
Qed.

(** X3. A resolution that fails prints nothing, whether the debug flag
    is set or not. *)
Theorem pin_find_failure_prints_nothing st x e :
  outcome (pin_find st x) = Raise e ->
  diagnostics (pin_find st x) = [].
Proof.
  run_resolver.
  destruct (pin_class_debug st);
    repeat (break_match; simpl in *; try congruence; subst).
Qed.

(** X4. With the debug flag set, a resolution that succeeds prints
    exactly one line, labelled by the strategy that matched and ending
    with the returned object and a newline: "Pin map passed pin " and
    the pin for an identifier that is a pin; otherwise the label, the
    identifier, " to ", the returned object, where the label is
    "Pin.mapper maps " when the mapper's answer is returned,
    "Pin.map_dict maps " for an entry of the override table,
    "Pin.board maps " for a board pin and "Pin.cpu maps " for a cpu
    pin. *)
Theorem pin_find_success_prints_one_line st x :
  pin_class_debug st = true ->
  let line who v :=
    [EvPrintf who; EvPrint x PRINT_REPR; EvPrintf " to ";
     EvPrint v PRINT_STR; EvPrintf newline] in
  (MP_OBJ_IS_TYPE x pin_type = true ->
     outcome (pin_find st x) = Return x /\
     diagnostics (pin_find st x)
     = [EvPrintf "Pin map passed pin "; EvPrint x PRINT_STR; EvPrintf newline]) /\
  (MP_OBJ_IS_TYPE x pin_type = false ->
     is_none (pin_class_mapper st) = false ->
     forall v, mp_call_function_1 (pin_class_mapper st) x = Return v ->
       is_none v = false -> MP_OBJ_IS_TYPE v pin_type = true ->
       outcome (pin_find st x) = Return v /\
       diagnostics (pin_find st x) = line "Pin.mapper maps " v) /\
  (MP_OBJ_IS_TYPE x pin_type = false -> mapper_declines st x ->
     forall v, override_table_entry st x = Some v ->
       outcome (pin_find st x) = Return v /\
       diagnostics (pin_find st x) = line "Pin.map_dict maps " v) /\
  (MP_OBJ_IS_TYPE x pin_type = false -> mapper_declines st x ->
     override_table_entry st x = None ->
     forall p, board_pin x = Some p ->
       outcome (pin_find st x) = Return (ObjPin p) /\
       diagnostics (pin_find st x) = line "Pin.board maps " (ObjPin p)) /\
  (MP_OBJ_IS_TYPE x pin_type = false -> mapper_declines st x ->
     override_table_entry st x = None -> board_pin x = None ->
     forall p, cpu_pin x = Some p ->
       outcome (pin_find st x) = Return (ObjPin p) /\
       diagnostics (pin_find st x) = line "Pin.cpu maps " (ObjPin p)).
Proof.
  intros Hd line.
  assert (Hlate : MP_OBJ_IS_TYPE x pin_type = false -> mapper_declines st x ->
            diagnostics (pin_find st x) =
            match override_table_entry st x with
            | Some v => line "Pin.map_dict maps " v
            | None =>
                match board_pin x with
                | Some p => line "Pin.board maps " (ObjPin p)
                | None =>
                    match cpu_pin x with
                    | Some p => line "Pin.cpu maps " (ObjPin p)
                    | None => []
                    end
                end
            end).
  { intros Hx Hm. subst line. run_resolver. rewrite Hx, Hd.
    destruct Hm as [Hm | Hm]; rewrite Hm; simpl.
    - repeat (break_match; simpl in *; try congruence; subst).
    - destruct (is_none (pin_class_mapper st)); simpl;
        repeat (break_match; simpl in *; try congruence; subst). }
  refine (conj _ (conj _ (conj _ (conj _ _)))).
  - intros Hx. split; [now rewrite pin_find_outcome, Hx |].
    run_resolver. now rewrite Hx, Hd.
  - intros Hx Hm v Hc Hv Hp. split; [now rewrite pin_find_outcome, Hx, Hm, Hc, Hv, Hp |].
    subst line. run_resolver. rewrite Hx, Hd, Hm, Hc. simpl. rewrite Hv, Hp. reflexivity.
  - intros Hx Hm v Ht. split; [now rewrite pin_find_declined, Ht |].
    now rewrite Hlate, Ht.
  - intros Hx Hm Ht p Hb. split; [now rewrite pin_find_declined, Ht, Hb |].
    now rewrite Hlate, Ht, Hb.
  - intros Hx Hm Ht Hb p Hc. split; [now rewrite pin_find_declined, Ht, Hb, Hc |].
    now rewrite Hlate, Ht, Hb, Hc.
Qed.

End ResolverExtras.

Section RegistryExtras.
Context {rt : Runtime} {board : Board}.
Implicit Types (st : pin_class_state) (x v cls : mp_obj_t).

(** X5. [Pin.mapper(f)] installs [f]: the getter then returns [f], and
    the next resolution of an identifier that is not a pin calls [f],
    once, with that identifier; after [Pin.mapper(None)] no call is
    made.  The override table and the debug flag are left as they
    were. *)
Theorem pin_mapper_installs st cls f x :
  let st' := snd (pin_mapper [cls; f] st) in
  fst (pin_mapper [cls; f] st) = mp_const_none /\
  pin_mapper [cls] st' = (f, st') /\
  pin_class_map_dict st' = pin_class_map_dict st /\
  pin_class_debug st' = pin_class_debug st /\
  (MP_OBJ_IS_TYPE x pin_type = false ->
     calls (pin_find st' x) = if is_none f then [] else [EvCall f x]).
Proof.
  simpl. repeat split.
  intros Hx. now rewrite pin_find_calls, Hx.
Qed.

(** X6. An identifier that only the override table knows: once
    [Pin.dict(d)] has installed a table [d] that holds the identifier
    with a value, [pin_find] returns that value; once [Pin.dict(None)]
    has removed the table, [pin_find] fails, with the
    invalid-identifier error for an identifier that is a str and with
    the [TypeError] of the conversion to str for any other key.  The
    getter returns the installed table. *)
Theorem pin_map_dict_install_remove st cls d x k v :
  MP_OBJ_IS_TYPE x pin_type = false ->
  mapper_declines st x ->
  board_pin x = None -> cpu_pin x = None ->
  is_none d = false ->
  mp_map_lookup (mp_obj_dict_get_map d) x = Some (k, Some v) ->
  let installed := snd (pin_map_dict [cls; d] st) in
  let removed := snd (pin_map_dict [cls; mp_const_none] installed) in
  fst (pin_map_dict [cls] installed) = d /\
  outcome (pin_find installed x) = Return v /\
  (forall s, x = ObjStr s -> outcome (pin_find removed x) = Raise (InvalidIdentifier s)) /\
  (MP_OBJ_IS_TYPE x mp_type_str = false ->
   outcome (pin_find removed x) = Raise (bad_implicit_conversion x)).
Proof.
  intros Hx Hm Hb Hc Hd Hl installed removed.
  split; [reflexivity |].
  assert (Hmi : mapper_declines installed x) by exact Hm.
  assert (Hmr : mapper_declines removed x) by exact Hm.
  split.
  - apply (pin_find_override_hit_unchecked installed x k v Hx Hmi); assumption.
  - assert (Hr : outcome (pin_find removed x) = unresolved x).
    { rewrite (pin_find_declined removed x Hx Hmr).
      unfold override_table_entry. simpl. now rewrite Hb, Hc. }
    rewrite Hr. split.
    + intros s ->. apply unresolved_str.
    + apply unresolved_not_str.
Qed.

(** X7. [Pin.debug(v)] stores the truth value of [v], not [v]: the
    getter then returns the boolean.  The mapper and the table are
    left as they were, so no resolution changes its result. *)
Theorem pin_debug_stores_truth st cls v x :
  let st' := snd (pin_debug [cls; v] st) in
  fst (pin_debug [cls] st') = ObjBool (mp_obj_is_true v) /\
  pin_class_mapper st' = pin_class_mapper st /\
  pin_class_map_dict st' = pin_class_map_dict st /\
  outcome (pin_find st' x) = outcome (pin_find st x).
Proof.
  simpl. repeat split.
  rewrite !pin_find_outcome. reflexivity.
Qed.

(** X8. Right after [pin_init0] only the two pin tables resolve a
    name: for an identifier that is not a pin, [pin_find] calls
    nothing, prints nothing, and returns the board pin of that name,
    else the cpu pin of that name, else fails: with the
    invalid-identifier error for a str, with the [TypeError] of the
    conversion to str for any other object. *)
Theorem pin_find_after_init0 x :
  MP_OBJ_IS_TYPE x pin_type = false ->
  pin_find pin_init0 x =
  ([], match board_pin x with
       | Some p => Return (ObjPin p)
       | None =>
           match cpu_pin x with
           | Some p => Return (ObjPin p)
           | None =>
               match x with
               | ObjStr s => Raise (InvalidIdentifier s)
               | _ => Raise (bad_implicit_conversion x)
               end
           end
       end).
Proof.
  intros Hx. run_resolver. rewrite Hx. simpl.
  destruct (pin_find_named_pin pin_board_pins_locals_dict x); [reflexivity |].
  destruct (pin_find_named_pin pin_cpu_pins_locals_dict x); [reflexivity |].
  destruct x; reflexivity.
Qed.

End RegistryExtras.

(** ** Properties of [names] *)

Section NamesExtras.
Context {rt : Runtime} {board : Board} {hal : Hal} {binding : Binding}.

Lemma pin_names_loop self (table : named_pins) (result : list mp_obj_t) :
  fold_left
    (fun result elem =>
       if pin_obj_eq_dec (snd elem) self then result ++ [ObjStr (fst elem)] else result)
    table result
  = result ++ map (fun e => ObjStr (fst e)) (filter (bound_to self) table).
Proof.
  revert result. induction table as [| e table IH]; intros result; simpl.
  - now rewrite app_nil_r.
  - rewrite IH. unfold bound_to at 2.
    repeat match goal with
           | |- context [pin_obj_eq_dec ?a ?b] => destruct (pin_obj_eq_dec a b)
           end; try contradiction.
    + rewrite <- app_assoc. reflexivity.
    + reflexivity.
Qed.

Lemma pin_names_unfold self :
  pin_names self
  = ObjStr (name self)
      :: map (fun e => ObjStr (fst e)) (filter (bound_to self) pin_board_pins_locals_dict).
Proof. unfold pin_names. now rewrite pin_names_loop. Qed.

Lemma pin_names_tail self s :
  In (ObjStr s) (tl (pin_names self)) <-> In (s, self) pin_board_pins_locals_dict.
Proof.
  rewrite pin_names_unfold. simpl. rewrite in_map_iff. split.
  - intros [[s' p] [Heq Hin]]. simpl in Heq. injection Heq as ->.
    apply filter_In in Hin. destruct Hin as [Hin Hb].
    unfold bound_to in Hb. simpl in Hb.
    destruct (pin_obj_eq_dec p self); [now subst | discriminate].
  - intros Hin. exists (s, self). split; [reflexivity |].
    apply filter_In. split; [exact Hin |].
    unfold bound_to. simpl. destruct (pin_obj_eq_dec self self); congruence.
Qed.

(** X9. [names] returns the pin's own name followed by exactly the
    keys of the board table entries that hold this pin, each once per
    entry and in the order of the table; so a name is listed after
    the first exactly when the board table holds this pin under it. *)
Theorem pin_names_lists_board_names self :
  pin_names self
  = ObjStr (name self)
      :: map (fun elem => ObjStr (fst elem))
           (filter (fun elem => if pin_obj_eq_dec (snd elem) self then true else false)
                   pin_board_pins_locals_dict) /\
  hd_error (pin_names self) = Some (ObjStr (name self)) /\
  forall s, In (ObjStr s) (tl (pin_names self)) <-> In (s, self) pin_board_pins_locals_dict.
Proof.
  split; [| split].
  - apply pin_names_unfold.
  - now rewrite pin_names_unfold.
  - apply pin_names_tail.
Qed.

Lemma find_named_in (table : named_pins) s p :
  find (fun e => String.eqb (fst e) s) table = Some (s, p) -> In (s, p) table.
Proof. intros H. exact (proj1 (find_some _ _ H)). Qed.

Lemma find_named_unique (table : named_pins) s p :
  NoDup (map fst table) -> In (s, p) table ->
  find (fun e => String.eqb (fst e) s) table = Some (s, p).
Proof.
  induction table as [| [s' p'] table IH]; intros Hnd Hin; [contradiction |].
  simpl in *. inversion Hnd as [| ? ? Hnotin Hnd']; subst.
  destruct (String.eqb s' s) eqn:Heq.
  - apply String.eqb_eq in Heq. subst s'.
    destruct Hin as [Hin | Hin]; [now injection Hin as -> |].
    exfalso. apply Hnotin. apply in_map_iff. now exists (s, p).
  - destruct Hin as [Hin | Hin].
    + injection Hin as -> ->. now rewrite String.eqb_refl in Heq.
    + now apply IH.
Qed.

(** X10. [names] and the board lookup agree.  A name that the board
    lookup resolves to this pin is among the names listed.  When the
    names of the board table are distinct, every name listed after the
    first is resolved by [pin_find], in the initial state, to this
    pin. *)
Theorem pin_names_resolve_back self s :
  (board_pin (ObjStr s) = Some self -> In (ObjStr s) (tl (pin_names self))) /\
  (NoDup (map fst pin_board_pins_locals_dict) ->
   In (ObjStr s) (tl (pin_names self)) ->
   pin_find pin_init0 (ObjStr s) = ([], Return (ObjPin self))).
Proof.
  split.
  - unfold board_pin, pin_find_named_pin.
    destruct (find _ _) as [[s' p] |] eqn:Hf; [| discriminate].
    simpl. intros Hp. injection Hp as ->.
    destruct (find_some _ _ Hf) as [Hin Heq]. simpl in Heq.
    apply String.eqb_eq in Heq. subst s'.
    now apply pin_names_tail.
  - intros Hnd Hin.
    apply pin_names_tail in Hin.
    rewrite pin_find_after_init0 by reflexivity.
    unfold board_pin, pin_find_named_pin.
    now rewrite (find_named_unique _ _ _ Hnd Hin).
Qed.

End NamesExtras.

(** ** Further properties of the configurator *)

Lemma to_uint_testbit z n : 0 <= n < 32 -> Z.testbit (to_uint z) n = Z.testbit z n.
Proof. intros Hn. unfold to_uint. apply Z.mod_pow2_bits_low. lia. Qed.

Lemma to_uint_land_low z m : 0 <= m < 2 ^ 32 -> Z.land (to_uint z) m = Z.land z m.
Proof.
  intros Hm. unfold to_uint. rewrite <- Z.land_ones by lia.
  rewrite <- Z.land_assoc. f_equal.
  rewrite Z.land_comm, Z.land_ones by lia. now apply Z.mod_small.
Qed.

Section ConfiguratorExtras.
Context {hal : Hal}.
Implicit Types (self : pin_obj_t) (args : pin_init_t).

(** A run either fails before any access or passes validation. *)
Lemma pin_obj_init_helper_cases self args :
  (exists e, pin_obj_init_helper self args = ([], Raise e)) \/
  (exists pull, valid_request args pull).
Proof.
  unfold valid_request, pin_obj_init_helper. unfold_trace.
  destruct (IS_GPIO_MODE (args_mode args)); simpl; [| eauto].
  destruct (get_pull args) as [pull | e]; simpl; [| eauto].
  destruct (IS_GPIO_PULL pull) eqn:Hp; simpl; [| eauto].
  right. exists pull. auto.
Qed.

(** The mux writes of a run. *)
Lemma mux_write_of_run self args pull base p q w :
  valid_request args pull ->
  In (IOCON_PinMuxSet base p q w) (events (pin_obj_init_helper self args)) ->
  w = modefunc args pull.
Proof.
  intros Hv. rewrite (pin_obj_init_helper_valid self args pull Hv).
  unfold events, fst, gpio_steps. simpl.
  intros [H | [H | H]]; [discriminate | now injection H | exfalso].
  destruct (args_alt args =? 0); [| contradiction].
  destruct H as [H | H]; [discriminate |].
  destruct (args_mode args =? GPIO_MODE_INPUT); [| destruct (args_val0 args)];
    simpl in H; intuition discriminate.
Qed.

(** X11. Whatever is requested, the word written to the mux/control
    register has the digital bit (bit 8) set, also for the analog
    mode; it has bit 7 set when inversion is requested and bit 9 set
    when [flt] is not. *)
Theorem mux_word_flag_bits self args base p q w :
  In (IOCON_PinMuxSet base p q w) (events (pin_obj_init_helper self args)) ->
  Z.testbit w 8 = true /\
  (args_inv args = true -> Z.testbit w 7 = true) /\
  (args_flt args = false -> Z.testbit w 9 = true).
Proof.
  intros Hin.
  destruct (pin_obj_init_helper_cases self args) as [[e He] | [pull Hv]].
  - rewrite He in Hin. contradiction.
  - rewrite (mux_write_of_run self args pull base p q w Hv Hin).
    unfold modefunc. rewrite !Z.lor_spec.
    rewrite !to_uint_testbit by lia. rewrite !Z.lor_spec.
    refine (conj _ (conj _ _)).
    + change (Z.testbit (Z.shiftl 1 8) 8) with true.
      now rewrite !orb_true_r.
    + intros ->. change (Z.testbit (Z.shiftl (Z.b2z true) 7) 7) with true.
      now rewrite !orb_true_r.
    + intros ->. change (Z.testbit (Z.shiftl (Z.b2z (negb false)) 9) 9) with true.
      now rewrite !orb_true_r.
Qed.

(** X12. The alternate function can be read back from the word: for
    [alt] in 0..15 and mode and pull encodings that leave the low four
    bits clear, the low four bits of the word written (the field
    [pin_print] decodes with [& 0xF]) are [alt]. *)
Theorem mux_word_alt_field self args pull base p q w :
  valid_request args pull ->
  0 <= args_alt args < 16 ->
  Z.land (args_mode args) 15 = 0 ->
  Z.land pull 15 = 0 ->
  In (IOCON_PinMuxSet base p q w) (events (pin_obj_init_helper self args)) ->
  Z.land w 15 = args_alt args.
Proof.
  intros Hv Ha Hm Hp Hin.
  rewrite (mux_write_of_run self args pull base p q w Hv Hin).
  unfold modefunc. rewrite !Z.land_lor_distr_l.
  rewrite to_uint_land_low by lia. rewrite !Z.land_lor_distr_l.
  rewrite Hp.
  rewrite <- (Z.land_assoc (args_mode args) 4095 15).
  change (Z.land 4095 15) with 15. rewrite Hm.
  change (Z.land (Z.shiftl 1 8) 15) with 0.
  assert (Hi : Z.land (Z.shiftl (Z.b2z (args_inv args)) 7) 15 = 0)
    by (destruct (args_inv args); reflexivity).
  assert (Hf : Z.land (Z.shiftl (Z.b2z (negb (args_flt args))) 9) 15 = 0)
    by (destruct (args_flt args); reflexivity).
  rewrite Hi, Hf, !Z.lor_0_r.
  change 15 with (Z.ones 4). rewrite Z.land_ones by lia.
  apply Z.mod_small. change (2 ^ 4) with 16. lia.
Qed.

(** X13. An initial value is dropped without notice when the mode is
    INPUT or when an alternate function is selected: the run is the
    same, access for access, as without it. *)
Theorem initial_value_ignored self args (v : option mp_obj_t) :
  args_mode args = GPIO_MODE_INPUT \/ args_alt args <> 0 ->
  pin_obj_init_helper self (with_val0 v args) = pin_obj_init_helper self args.
Proof.
  intros H. unfold pin_obj_init_helper, get_pull. simpl.
  destruct H as [H | H].
  - rewrite H, Z.eqb_refl. reflexivity.
  - apply Z.eqb_neq in H. rewrite H. reflexivity.
Qed.

(** X14. Whether a request is accepted depends on its mode and pull
    only: not on the pin, not on [alt] (which is checked neither
    against a range nor against the pin's alternate functions), not on
    the other arguments. *)
Theorem validation_looks_at_mode_and_pull self self' args args' :
  args_mode args = args_mode args' ->
  args_pull args = args_pull args' ->
  outcome (pin_obj_init_helper self args) = outcome (pin_obj_init_helper self' args').
Proof.
  intros Hm Hp.
  assert (Hg : get_pull args = get_pull args') by (unfold get_pull; now rewrite Hp).
  unfold pin_obj_init_helper. unfold_trace. rewrite Hm, Hg.
  repeat (break_match; simpl in *; try congruence).
Qed.

(** X15. A run touches this pin only: every register access is made
    at the pin's own port and pin number (the mux register of the pin,
    its bit in the direction registers of its port and GPIO block, its
    output).  A run that succeeds returns [None], has written the mux
    register exactly once and a direction register at most once. *)
Theorem configure_touches_own_pin self args :
  Forall (addresses self) (events (pin_obj_init_helper self args)) /\
  (forall r, outcome (pin_obj_init_helper self args) = Return r ->
     r = mp_const_none /\
     (exists w, filter is_mux_write (events (pin_obj_init_helper self args))
                = [IOCON_PinMuxSet IOCON (port self) (pin self) w]) /\
     (List.length (filter is_direction_write (events (pin_obj_init_helper self args)))
      <= 1)%nat).
Proof.
  destruct (pin_obj_init_helper_cases self args) as [[e He] | [pull Hv]].
  - rewrite He. split; [constructor | discriminate].
  - rewrite (pin_obj_init_helper_valid self args pull Hv).
    unfold events, outcome, fst, snd, gpio_steps.
    split.
    + destruct (args_alt args =? 0);
        [destruct (args_mode args =? GPIO_MODE_INPUT); [| destruct (args_val0 args)] |];
        simpl; repeat constructor.
    + intros r Hr. injection Hr as <-. split; [reflexivity |].
      destruct (args_alt args =? 0);
        [destruct (args_mode args =? GPIO_MODE_INPUT); [| destruct (args_val0 args)] |];
        simpl; split; eauto.
Qed.

Lemma class_pull_in_set v :
  In v [GPIO_PULLUP; GPIO_PULLDOWN; GPIO_REPEATER] -> IS_GPIO_PULL v = true.
Proof. intros H. apply IS_GPIO_PULL_In. unfold gpio_pull_set. simpl in *. tauto. Qed.

(** X16. A request written with the constants of the class is
    accepted: with a mode taken from IN, OUT, OPEN_DRAIN, ALT,
    ALT_OPEN_DRAIN or INVERTER, and a pull that is left out or taken
    from PULL_UP, PULL_DOWN or REPEATER, the configuration succeeds,
    provided the pull encodings of the header fit the 32-bit [uint]. *)
Theorem class_constants_accepted self args n m :
  In (n, m) pin_class_constants ->
  ~ In n ["PULL_UP"; "PULL_DOWN"; "REPEATER"] ->
  args_mode args = m ->
  (args_pull args = mp_const_none /\ 0 <= IOCON_MODE_INACT < 2 ^ 32) \/
  (exists n' p, In n' ["PULL_UP"; "PULL_DOWN"; "REPEATER"] /\
                In (n', p) pin_class_constants /\
                args_pull args = ObjInt p /\ 0 <= p < 2 ^ 32) ->
  outcome (pin_obj_init_helper self args) = Return mp_const_none.
Proof.
  intros Hin Hn Hm Hpull.
  assert (Hmode : IS_GPIO_MODE (args_mode args) = true).
  { rewrite Hm. apply IS_GPIO_MODE_In. unfold gpio_mode_set.
    unfold pin_class_constants in Hin. simpl in Hin, Hn |- *.
    repeat (destruct Hin as [Hin | Hin];
            [injection Hin as <- <-; tauto |]).
    contradiction. }
  assert (Hp : exists pull, get_pull args = Return pull /\ IS_GPIO_PULL pull = true).
  { unfold get_pull.
    destruct Hpull as [[Hnone Hr] | (n' & p & Hn' & Hin' & Hobj & Hr)].
    - rewrite Hnone. simpl. eexists. split; [reflexivity |].
      rewrite to_uint_small by exact Hr.
      apply IS_GPIO_PULL_In. unfold gpio_pull_set. simpl. tauto.
    - rewrite Hobj. simpl. eexists. split; [reflexivity |].
      rewrite to_uint_small by exact Hr.
      apply class_pull_in_set.
      unfold pin_class_constants in Hin'. simpl in Hin', Hn' |- *.
      repeat (destruct Hin' as [Hin' | Hin'];
              [injection Hin' as <- <-;
               try tauto; exfalso; intuition discriminate |]).
      contradiction. }
  destruct Hp as (pull & Hg & Hv).
  now rewrite (pin_obj_init_helper_valid self args pull (conj Hmode (conj Hg Hv))).
Qed.

End ConfiguratorExtras.

(** ** Properties of the constructor and of [init] *)





Section ConstructorExtras.
Context {rt : Runtime} {board : Board} {hal : Hal} {binding : Binding}.
Implicit Types (st : pin_class_state) (id : mp_obj_t) (pos_args : list mp_obj_t)
  (kw_args : mp_map_t).








End ConstructorExtras.

(** ** A property of the description *)

Section DescribeExtras.
Context {hal : Hal} {rb : Readback}.

(** X20. The description of a pin starts with the header
    "Pin(Pin.cpu.<name>, mode=Pin.", the one text that opens a
    parenthesis.  An analog pin prints just "ANALOG)" after it.  A
    digital pin prints more and ends with its function: "Func=GPIO"
    when the alternate-function field of the mode is 0, else the
    alternate function with a closing parenthesis, by name when the
    pin lists the index and by number when it does not.  So the
    parenthesis is closed for an analog pin or a pin on an alternate
    function and stays open for a digital GPIO pin. *)
Theorem pin_print_parentheses (self : pin_obj_t) :
  let header := mp_printf "Pin(Pin.cpu.%q, mode=Pin." [ArgStr (name self)] in
  let mode := pin_get_mode self in
  let analog := Z.land mode GPIO_MODE_DIGITAL =? 0 in
  let gpio_function := Z.land mode 15 =? 0 in
  hd_error (events (pin_print self)) = Some header /\
  open_parens [header] = 1 /\
  open_parens (events (pin_print self)) = (if analog || negb gpio_function then 0 else 1) /\
  (analog = true -> events (pin_print self) = [header; mp_print_str "ANALOG)"]) /\
  (analog = false ->
     (3 <= List.length (events (pin_print self)))%nat /\
     last (events (pin_print self)) header =
       if gpio_function then mp_printf "Func=GPIO" []
       else match pin_find_af_by_index self (pin_get_af self) with
            | Some af_obj => mp_printf ", af=Pin.%q)" [ArgStr (af_name af_obj)]
            | None => mp_printf ", af=%d)" [ArgInt (pin_get_af self)]
            end).
Proof.
  intros header mode analog gpio_function. subst header mode analog gpio_function.
  unfold pin_print, print_event. unfold_trace.
  refine (conj _ (conj _ (conj _ (conj _ _)))).
  - repeat (break_match; simpl in *; try congruence; try reflexivity).
  - reflexivity.
  - repeat (break_match; simpl in *; try congruence; try reflexivity).
  - intros Ha. rewrite Ha. reflexivity.
  - intros Ha. rewrite Ha.
    repeat (break_match; simpl in *; try congruence; try reflexivity;
            try (split; [lia | reflexivity])).
Qed.

End DescribeExtras.

(** ** The further properties on the sample environment *)

Lemma pin_find_result_is_pin_witness :
  MP_OBJ_IS_TYPE (ObjPin P0_4) pin_type = true /\
  outcome (@pin_find sample_runtime sample_board st_pin_dict (ObjPin P0_4))
  = Return (ObjPin P0_4) /\
  calls (@pin_find sample_runtime sample_board st_pin_dict (ObjPin P0_4)) = [].
Proof.
  apply (@pin_find_result_is_pin sample_runtime sample_board
           st_pin_dict (ObjStr "LeftMotorDir") (ObjPin P0_4)).
  - intros k w [H | []]. injection H as _ <-. reflexivity.
  - reflexivity.
Defined.

Lemma pin_find_failures_witness :
  (MP_OBJ_IS_TYPE (ObjStr "X1") pin_type = false /\
   ((exists s, ObjStr "X1" = ObjStr s /\ InvalidMapperResult = InvalidIdentifier s) \/
    (MP_OBJ_IS_TYPE (ObjStr "X1") mp_type_str = false /\
     InvalidMapperResult = bad_implicit_conversion (ObjStr "X1")) \/
    (is_none (pin_class_mapper st_bad_mapper) = false /\
     (@mp_call_function_1 sample_runtime (pin_class_mapper st_bad_mapper) (ObjStr "X1")
      = Raise InvalidMapperResult \/
      (InvalidMapperResult = InvalidMapperResult /\
       exists v,
         @mp_call_function_1 sample_runtime (pin_class_mapper st_bad_mapper) (ObjStr "X1")
         = Return v /\
         is_none v = false /\ MP_OBJ_IS_TYPE v pin_type = false))))) /\
  (MP_OBJ_IS_TYPE (ObjInt 5) pin_type = false /\
   ((exists s, ObjInt 5 = ObjStr s /\
               bad_implicit_conversion (ObjInt 5) = InvalidIdentifier s) \/
    (MP_OBJ_IS_TYPE (ObjInt 5) mp_type_str = false /\
     bad_implicit_conversion (ObjInt 5) = bad_implicit_conversion (ObjInt 5)) \/
    (is_none (pin_class_mapper pin_init0) = false /\
     (@mp_call_function_1 sample_runtime (pin_class_mapper pin_init0) (ObjInt 5)
      = Raise (bad_implicit_conversion (ObjInt 5)) \/
      (bad_implicit_conversion (ObjInt 5) = InvalidMapperResult /\
       exists v,
         @mp_call_function_1 sample_runtime (pin_class_mapper pin_init0) (ObjInt 5)
         = Return v /\
         is_none v = false /\ MP_OBJ_IS_TYPE v pin_type = false))))).
Proof.
  split.
  - exact (@pin_find_failures sample_runtime sample_board st_bad_mapper (ObjStr "X1")
             InvalidMapperResult eq_refl).
  - exact (@pin_find_failures sample_runtime sample_board pin_init0 (ObjInt 5)
             (bad_implicit_conversion (ObjInt 5)) eq_refl).
Defined.

Lemma pin_find_failure_prints_nothing_witness :
  diagnostics (@pin_find sample_runtime sample_board (set_debug true pin_init0) (ObjStr "Z9"))
  = [] /\
  diagnostics (@pin_find sample_runtime sample_board (set_debug true pin_init0) (ObjInt 5))
  = [].
Proof.
  split.
  - exact (@pin_find_failure_prints_nothing sample_runtime sample_board
             (set_debug true pin_init0) (ObjStr "Z9") (InvalidIdentifier "Z9") eq_refl).
  - exact (@pin_find_failure_prints_nothing sample_runtime sample_board
             (set_debug true pin_init0) (ObjInt 5)
             (bad_implicit_conversion (ObjInt 5)) eq_refl).
Defined.

Lemma pin_find_success_prints_one_line_witness :
  diagnostics (@pin_find sample_runtime sample_board
                 (set_debug true st_mapper_and_dict) (ObjStr "LeftMotorDir"))
  = [EvPrintf "Pin.mapper maps "; EvPrint (ObjStr "LeftMotorDir") PRINT_REPR;
     EvPrintf " to "; EvPrint (ObjPin P4_7) PRINT_STR; EvPrintf newline] /\
  diagnostics (@pin_find sample_runtime sample_board
                 (set_debug true st_mapper_and_dict) (ObjStr "spare"))
  = [EvPrintf "Pin.map_dict maps "; EvPrint (ObjStr "spare") PRINT_REPR;
     EvPrintf " to "; EvPrint (ObjInt 12) PRINT_STR; EvPrintf newline] /\
  diagnostics (@pin_find sample_runtime sample_board
                 (set_debug true st_mapper_and_dict) (ObjStr "X1"))
  = [EvPrintf "Pin.board maps "; EvPrint (ObjStr "X1") PRINT_REPR;
     EvPrintf " to "; EvPrint (ObjPin P0_4) PRINT_STR; EvPrintf newline] /\
  diagnostics (@pin_find sample_runtime sample_board
                 (set_debug true st_mapper_and_dict) (ObjStr "P4_7"))
  = [EvPrintf "Pin.cpu maps "; EvPrint (ObjStr "P4_7") PRINT_REPR;
     EvPrintf " to "; EvPrint (ObjPin P4_7) PRINT_STR; EvPrintf newline] /\
  diagnostics (@pin_find sample_runtime sample_board
                 (set_debug true st_mapper_and_dict) (ObjPin P0_4))
  = [EvPrintf "Pin map passed pin "; EvPrint (ObjPin P0_4) PRINT_STR; EvPrintf newline].
Proof.
  pose proof (fun x => @pin_find_success_prints_one_line sample_runtime sample_board
                         (set_debug true st_mapper_and_dict) x eq_refl) as T.
  cbv zeta in T.
  refine (conj _ (conj _ (conj _ (conj _ _)))).
  - exact (proj2 (proj1 (proj2 (T (ObjStr "LeftMotorDir")))
                    eq_refl eq_refl (ObjPin P4_7) eq_refl eq_refl eq_refl)).
  - exact (proj2 (proj1 (proj2 (proj2 (T (ObjStr "spare"))))
                    eq_refl (or_intror eq_refl) (ObjInt 12) eq_refl)).
  - exact (proj2 (proj1 (proj2 (proj2 (proj2 (T (ObjStr "X1")))))
                    eq_refl (or_intror eq_refl) eq_refl P0_4 eq_refl)).
  - exact (proj2 (proj2 (proj2 (proj2 (proj2 (T (ObjStr "P4_7")))))
                    eq_refl (or_intror eq_refl) eq_refl eq_refl P4_7 eq_refl)).
  - exact (proj2 (proj1 (T (ObjPin P0_4)) eq_refl)).
Defined.

Lemma pin_mapper_installs_witness :
  calls (@pin_find sample_runtime sample_board
           (snd (pin_mapper [mp_const_none; ObjFun 1] pin_init0)) (ObjStr "X1"))
  = [EvCall (ObjFun 1) (ObjStr "X1")].
Proof.
  exact (proj2 (proj2 (proj2 (proj2
           (@pin_mapper_installs sample_runtime sample_board pin_init0 mp_const_none
              (ObjFun 1) (ObjStr "X1"))))) eq_refl).
Defined.

Lemma pin_map_dict_install_remove_witness :
  (fst (pin_map_dict [mp_const_none]
          (snd (pin_map_dict [mp_const_none; MyMapperDict] pin_init0))) = MyMapperDict /\
   outcome (@pin_find sample_runtime sample_board
              (snd (pin_map_dict [mp_const_none; MyMapperDict] pin_init0)) (ObjStr "spare"))
   = Return (ObjInt 12) /\
   outcome (@pin_find sample_runtime sample_board
              (snd (pin_map_dict [mp_const_none; mp_const_none]
                      (snd (pin_map_dict [mp_const_none; MyMapperDict] pin_init0))))
              (ObjStr "spare"))
   = Raise (InvalidIdentifier "spare")) /\
  (outcome (@pin_find sample_runtime sample_board
              (snd (pin_map_dict [mp_const_none; IntKeyDict] pin_init0)) (ObjInt 5))
   = Return (ObjPin P4_7) /\
   outcome (@pin_find sample_runtime sample_board
              (snd (pin_map_dict [mp_const_none; mp_const_none]
                      (snd (pin_map_dict [mp_const_none; IntKeyDict] pin_init0))))
              (ObjInt 5))
   = Raise (bad_implicit_conversion (ObjInt 5))).
Proof.
  pose proof (@pin_map_dict_install_remove sample_runtime sample_board pin_init0
                mp_const_none MyMapperDict (ObjStr "spare") (ObjStr "spare") (ObjInt 12)
                eq_refl (or_introl eq_refl) eq_refl eq_refl eq_refl eq_refl) as T1.
  pose proof (@pin_map_dict_install_remove sample_runtime sample_board pin_init0
                mp_const_none IntKeyDict (ObjInt 5) (ObjInt 5) (ObjPin P4_7)
                eq_refl (or_introl eq_refl) eq_refl eq_refl eq_refl eq_refl) as T2.
  cbv zeta in T1, T2.
  split.
  - exact (conj (proj1 T1) (conj (proj1 (proj2 T1))
             (proj1 (proj2 (proj2 T1)) "spare" eq_refl))).
  - exact (conj (proj1 (proj2 T2)) (proj2 (proj2 (proj2 T2)) eq_refl)).
Defined.

Lemma pin_find_after_init0_witness :
  @pin_find sample_runtime sample_board pin_init0 (ObjStr "P4_7")
  = ([], Return (ObjPin P4_7)).
Proof.
  exact (@pin_find_after_init0 sample_runtime sample_board (ObjStr "P4_7") eq_refl).
Defined.

Lemma sample_board_names_distinct :
  NoDup (map fst (@pin_board_pins_locals_dict sample_board)).
Proof. repeat constructor. simpl. tauto. Defined.

Lemma pin_names_resolve_back_witness :
  @pin_names sample_board P0_4 = [ObjStr "P0_4"; ObjStr "X1"] /\
  @pin_find sample_runtime sample_board pin_init0 (ObjStr "X1")
  = ([], Return (ObjPin P0_4)).
Proof.
  split; [reflexivity |].
  apply (proj2 (@pin_names_resolve_back sample_runtime sample_board P0_4 "X1")
           sample_board_names_distinct).
  simpl. left. reflexivity.
Defined.

Lemma mux_word_flag_bits_witness :
  Z.testbit 418 8 = true /\
  (args_inv alt2_pulled_up = true -> Z.testbit 418 7 = true) /\
  (args_flt alt2_pulled_up = false -> Z.testbit 418 9 = true).
Proof.
  apply (@mux_word_flag_bits sample_hal P4_7 alt2_pulled_up 1073745920 4 7 418).
  simpl. right. left. reflexivity.
Defined.

Lemma mux_word_alt_field_witness : Z.land 418 15 = 2.
Proof.
  apply (@mux_word_alt_field sample_hal P4_7 alt2_pulled_up 32 1073745920 4 7 418
           valid_alt2_pulled_up).
  - simpl. lia.
  - reflexivity.
  - reflexivity.
  - simpl. right. left. reflexivity.
Defined.

Lemma initial_value_ignored_witness :
  @pin_obj_init_helper sample_hal P0_4 (with_val0 None input_pulled_down)
  = @pin_obj_init_helper sample_hal P0_4 input_pulled_down.
Proof.
  apply (@initial_value_ignored sample_hal P0_4 input_pulled_down None).
  left. reflexivity.
Defined.

Lemma validation_looks_at_mode_and_pull_witness :
  outcome (@pin_obj_init_helper sample_hal P0_4 out_pp_high)
  = outcome (@pin_obj_init_helper sample_hal P4_7 out_pp_alt7).
Proof.
  exact (@validation_looks_at_mode_and_pull sample_hal P0_4 P4_7 out_pp_high out_pp_alt7
           eq_refl eq_refl).
Defined.

Lemma class_constants_accepted_witness :
  outcome (@pin_obj_init_helper sample_hal P0_4 out_pp_high) = Return mp_const_none /\
  outcome (@pin_obj_init_helper sample_hal P4_7 alt2_pulled_up) = Return mp_const_none.
Proof.
  split.
  - apply (@class_constants_accepted sample_hal P0_4 out_pp_high "OUT" 4096).
    + simpl. tauto.
    + simpl. intuition discriminate.
    + reflexivity.
    + left. split; [reflexivity | simpl; lia].
  - apply (@class_constants_accepted sample_hal P4_7 alt2_pulled_up "ALT" 8192).
    + simpl. tauto.
    + simpl. intuition discriminate.
    + reflexivity.
    + right. exists "PULL_UP", 32. simpl. repeat split; try tauto; lia.
Defined.



